(** * Firmware update job of the diagnostic agent (lib/jobs/emc-diag-update-firmware.js)

    A shallow embedding of the job [DiagUpdateFirmware] and the properties of
    its mode translation, its response validation and its run chain.

    Layout: the JavaScript values and built-ins the job relies on, the
    promise monad, the collaborators, the job itself, then the properties. *)

From Stdlib Require Import ZArith Lia Ascii String List DecimalString DecimalPos DecimalZ.
From stdpp Require Import base option list gmap strings.

#[local] Set Warnings "-register-all".
Local Open Scope string_scope.
Local Open Scope Z_scope.

(** ** Errors and results *)

(** What the job can throw or be rejected with. *)
Inductive error : Type :=
| TypeError (message : string)       (* thrown by the runtime *)
| Error (message : string)           (* [new Error(message)] *)
| AssertionError (constraint : string) (* thrown by the [assert] service *)
| DiscoveryTimeout                   (* discovery retries exhausted *)
| Rejected (reason : string).        (* rejection of a call to the agent *)

Inductive result (A : Type) : Type :=
| Ok (a : A)
| Throw (e : error).
Arguments Ok {A} a.
Arguments Throw {A} e.

(** ** JavaScript values and built-ins *)

Module JS.

(** Strings are sequences of code units below 256. *)

(** White space as [parseInt] skips it: TAB, LF, VT, FF, CR, SP and NBSP. *)
Definition isWhiteSpace (c : ascii) : bool :=
  let n := nat_of_ascii c in
  ((9 <=? n)%nat && (n <=? 13)%nat) || (n =? 32)%nat || (n =? 160)%nat.

Fixpoint trimStart (s : string) : string :=
  match s with
  | String c s' => if isWhiteSpace c then trimStart s' else s
  | EmptyString => EmptyString
  end.

Definition isDecimalDigit (c : ascii) : bool :=
  let n := nat_of_ascii c in (48 <=? n)%nat && (n <=? 57)%nat.

(** The value of a digit character in radix 36: 0-9, then a-z or A-Z. *)
Definition digitValue (c : ascii) : option Z :=
  let n := Z.of_nat (nat_of_ascii c) in
  if (48 <=? n) && (n <=? 57) then Some (n - 48)
  else if (97 <=? n) && (n <=? 122) then Some (n - 87)
  else if (65 <=? n) && (n <=? 90) then Some (n - 55)
  else None.

(** The number read from the longest prefix of [s] made of digits of
    [radix]; [acc] is [None] as long as no digit was read. *)
Fixpoint digitsPrefix (radix : Z) (s : string) (acc : option Z) : option Z :=
  match s with
  | String c s' =>
      match digitValue c with
      | Some d =>
          if d <? radix
          then digitsPrefix radix s' (Some (radix * default 0 acc + d))
          else acc
      | None => acc
      end
  | EmptyString => acc
  end.

(** [parseInt(string)] without a radix; [None] is NaN. *)
Definition parseIntString (s : string) : option Z :=
  let s1 := trimStart s in
  let '(sign, s2) :=
    match s1 with
    | String "-" r => (-1, r)
    | String "+" r => (1, r)
    | _ => (1, s1)
    end in
  let '(radix, s3) :=
    match s2 with
    | String "0" (String "x" r) => (16, r)
    | String "0" (String "X" r) => (16, r)
    | _ => (10, s2)
    end in
  Z.mul sign <$> digitsPrefix radix s3 None.

(** The decimal literal of an integer. *)
Definition decimal (n : Z) : string := NilZero.string_of_int (Z.to_int n).

(** Numbers have 53 significant bits: the number nearest to the integer
    [a >= 0], the even one of two that are equally near. (The range of the
    exponent is left out: an integer beyond the largest number is no number
    of the language.) *)
Definition roundDouble (a : Z) : Z :=
  if a <? 2 ^ 53 then a
  else
    let e := Z.log2 a - 52 in
    let q := Z.shiftr a e in
    let r := a - Z.shiftl q e in
    let half := Z.shiftl 1 (e - 1) in
    Z.shiftl (if (half <? r) || ((r =? half) && Z.odd q) then q + 1 else q) e.

(** The multiple of [p] nearest to the number [x] among those that denote
    [x], if there is one; of two equally near, the one with the even
    multiplier. *)
Definition nearestWith (x p : Z) : option Z :=
  let lo := x / p * p in
  let hi := lo + p in
  let okLo := roundDouble lo =? x in
  let okHi := roundDouble hi =? x in
  if okLo && okHi
  then Some (if x - lo <? hi - x then lo
             else if hi - x <? x - lo then hi
             else if Z.even (lo / p) then lo else hi)
  else if okLo then Some lo
  else if okHi then Some hi
  else None.

(** The decimal of the fewest significant digits that denotes the number
    [x], searched from one significant digit on: [p] is the power of ten of
    the last digit kept, at first that of the first digit of [x]. *)
Fixpoint shortestFrom (x p : Z) (fuel : nat) : Z :=
  match fuel with
  | O => x
  | S fuel' =>
      match nearestWith x p with
      | Some v => v
      | None => if p <=? 1 then x else shortestFrom x (p / 10) fuel'
      end
  end.

(** The decimal that [String] prints for the number [x]: of the decimals
    that denote [x], one with the fewest significant digits, and of these
    the nearest to [x]. *)
Definition shortest (x : Z) : Z :=
  let digits := String.length (decimal x) in
  shortestFrom x (10 ^ Z.of_nat (digits - 1)) digits.

(** [s] without the zeros at its end. *)
Fixpoint stripTrailingZeros (s : string) : string :=
  match s with
  | EmptyString => EmptyString
  | String c rest =>
      match stripTrailingZeros rest with
      | EmptyString => if bool_decide (c = "0"%char) then EmptyString else String c EmptyString
      | rest' => String c rest'
      end
  end.

(** The exponential form of [v >= 10^21]: the first digit, the other
    significant digits after a point, the exponent. *)
Definition exponential (v : Z) : string :=
  match decimal v with
  | String c rest =>
      String c
        (match stripTrailingZeros rest with
         | EmptyString => EmptyString
         | fraction => String "." fraction
         end ++ String "e" (String "+" (decimal (Z.of_nat (String.length rest)))))
  | EmptyString => EmptyString
  end.

(** [String(n)] of an integer-valued number (Number::toString): the
    decimal literal below 2^53, where every integer is a number; from there
    on the digits that suffice to tell the number from its neighbours,
    padded with zeros below 10^21 and in exponential form from 10^21 on. An
    integer that is no number stands for the number nearest to it. *)
Definition numberToString (n : Z) : string :=
  if Z.abs n <? 2 ^ 53 then decimal n
  else
    let v := shortest (roundDouble (Z.abs n)) in
    let digits := if v <? 10 ^ 21 then decimal v else exponential v in
    if n <? 0 then String "-" digits else digits.

(** [_.startsWith(string, target)] on strings. *)
Definition startsWith (s target : string) : bool := String.prefix target s.

(** The members every plain object inherits from [Object.prototype]. *)
Definition objectPrototype : list string :=
  [ "constructor"; "__defineGetter__"; "__defineSetter__"; "hasOwnProperty";
    "__lookupGetter__"; "__lookupSetter__"; "isPrototypeOf";
    "propertyIsEnumerable"; "toString"; "valueOf"; "__proto__";
    "toLocaleString" ].

(** Values of a response body: what [JSON.parse] produces, and [undefined]
    for what is absent. Numbers are integer-valued: [Num n] is the number
    [n], and [JSON.parse] yields no integer of more than 53 significant
    bits. *)
Inductive value : Type :=
| Undefined
| Null
| Bool (b : bool)
| Num (n : Z)
| Str (s : string)
| Arr (elements : list value)
| Obj (properties : list (string * value)).

(** An own property of a plain object; the first entry of a key stands. *)
Definition ownProperty (properties : list (string * value)) (key : string) : value :=
  match List.find (fun kv => bool_decide (kv.1 = key)) properties with
  | Some kv => kv.2
  | None => Undefined
  end.

Definition cannotRead (name base : string) : error :=
  TypeError ("Cannot read property '" +:+ name +:+ "' of " +:+ base).

(** [v.name] for the names this job reads ([result], [length],
    [atomic_test_data], [secure_firmware_update]); none of them is inherited
    from a prototype, and only strings and arrays have a [length] of their
    own. Reading a property of [undefined] or [null] throws. *)
Definition get (v : value) (name : string) : result value :=
  match v with
  | Undefined => Throw (cannotRead name "undefined")
  | Null => Throw (cannotRead name "null")
  | Bool _ | Num _ => Ok Undefined
  | Str s =>
      Ok (if bool_decide (name = "length") then Num (Z.of_nat (String.length s))
          else Undefined)
  | Arr l =>
      Ok (if bool_decide (name = "length") then Num (Z.of_nat (length l))
          else Undefined)
  | Obj kvs => Ok (ownProperty kvs name)
  end.

(** A number used as a property name; [None] is NaN. *)
Definition numberKey (n : option Z) : string :=
  match n with
  | Some i => numberToString i
  | None => "NaN"
  end.

(** [v[n]] for a number [n]: an element of an array, a character of a string,
    the property named by the number on a plain object. *)
Definition getIndex (v : value) (n : option Z) : result value :=
  match v with
  | Undefined => Throw (cannotRead (numberKey n) "undefined")
  | Null => Throw (cannotRead (numberKey n) "null")
  | Bool _ | Num _ => Ok Undefined
  | Str s =>
      Ok (match n with
          | Some i =>
              if 0 <=? i
              then match String.get (Z.to_nat i) s with
                   | Some c => Str (String c EmptyString)
                   | None => Undefined
                   end
              else Undefined
          | None => Undefined
          end)
  | Arr l =>
      Ok (match n with
          | Some i => if 0 <=? i then default Undefined (l !! Z.to_nat i) else Undefined
          | None => Undefined
          end)
  | Obj kvs => Ok (ownProperty kvs (numberKey n))
  end.

Section Coercion.

(** [ToNumber] of a string, an array or an object ([None] is NaN; it throws
    when the conversion to a primitive does). The grammar of numeric
    strings is the runtime's and stays a parameter. *)
Variable toNumber : value -> result (option Z).

(** [v - 2]. *)
Definition minus2 (v : value) : result (option Z) :=
  match v with
  | Undefined => Ok None
  | Null => Ok (Some (0 - 2))
  | Bool b => Ok (Some ((if b then 1 else 0) - 2))
  | Num n => Ok (Some (n - 2))
  | Str _ | Arr _ | Obj _ =>
      match toNumber v with
      | Ok n => Ok ((fun i => i - 2) <$> n)
      | Throw e => Throw e
      end
  end.

End Coercion.

(** [_.isEqual(v, s)] for a string [s]. *)
Definition isEqual (v : value) (s : string) : bool :=
  match v with
  | Str t => bool_decide (t = s)
  | _ => false
  end.

(** A runtime for the closed examples. It converts the empty string (0) and
    strings of decimal digits; every other string and every array and object
    counts as NaN, which is right for the values the examples use. *)
Definition toNumberDecimal (v : value) : result (option Z) :=
  match v with
  | Str EmptyString => Ok (Some 0)
  | Str s =>
      Ok (if forallb isDecimalDigit (list_ascii_of_string s)
          then digitsPrefix 10 s None else None)
  | _ => Ok None
  end.

End JS.

(** ** Image modes *)

(** The user's image mode: a string or an integer
    ([@param {String/Integer} mode]). *)
Inductive mode : Type :=
| ModeStr (s : string)
| ModeInt (n : Z).

(** What a translation returns: nothing, a string, the number it was given,
    or a member reached through the prototype chain of a mapping object. *)
Inductive mval : Type :=
| MUndefined
| MString (s : string)
| MNumber (n : Z)
| MBuiltin (name : string).

Definition modeToString (m : mode) : string :=
  match m with
  | ModeStr s => s
  | ModeInt n => JS.numberToString n
  end.

Definition modeValue (m : mode) : mval :=
  match m with
  | ModeStr s => MString s
  | ModeInt n => MNumber n
  end.

(** [parseInt(mode)]: the argument is converted to a string first. *)
Definition parseInt (m : mode) : option Z := JS.parseIntString (modeToString m).

(** [object[key]] on a mapping object whose own properties are [o]. *)
Definition getProperty (o : gmap string string) (key : string) : mval :=
  match o !! key with
  | Some v => MString v
  | None => if bool_decide (key ∈ JS.objectPrototype) then MBuiltin key else MUndefined
  end.

(** ** The agent client, the job object and what a run leaves behind *)

(** An instance of [DiagTool] (lib/utils/job-utils/diag-tool.js, not among
    the sources): the outcome of each of its calls. [syncDiscovery k] is the
    outcome of the discovery attempt number [k]. *)
Record agent : Type := {
  syncDiscovery : nat -> result unit;
  getAllDevices : result unit;
  uploadImageFile : string -> string -> string -> result unit;
  updateFirmware : string -> string -> mval -> string -> result JS.value;
  bmcReset : bool -> result unit;
  warmReset : bool -> result unit
}.

Module Options.
Record t : Type := {
  imageUrl : string;
  imageName : string;
  imageMode : mode;
  firmwareType : string;
  skipReset : option bool   (* [None]: the option is absent *)
}.
End Options.

Module Context.
Record t : Type := {
  target : string;
  nodeIp : string   (* an absent address reaches the check as the empty string *)
}.
End Context.

(** The job object [this]. [diagTool] is [None] for the empty object the
    constructor stores. *)
Record job : Type := {
  options : Options.t;
  context : Context.t;
  taskId : string;
  nodeId : string;
  imageUrl : string;
  imageName : string;
  imageMode : mode;
  firmwareType : string;
  skipReset : bool;
  diagImagePath : string;
  spiModeMapping : gmap string string;
  bmcModeMapping : gmap string string;
  diagTool : option agent;
  retryCount : Z;
  retryDuration : Z
}.

Definition set_diagTool (self : job) (tool : agent) : job :=
  {| options := options self; context := context self; taskId := taskId self;
     nodeId := nodeId self; imageUrl := imageUrl self; imageName := imageName self;
     imageMode := imageMode self; firmwareType := firmwareType self;
     skipReset := skipReset self; diagImagePath := diagImagePath self;
     spiModeMapping := spiModeMapping self; bmcModeMapping := bmcModeMapping self;
     diagTool := Some tool;
     retryCount := retryCount self; retryDuration := retryDuration self |}.

(** What a run does to the outside, in order. *)
Inductive event : Type :=
| NewDiagTool (host nodeId : string)
| RetrySyncDiscovery (delay retries : Z)
| SyncDiscovery (attempt : nat)
| Delay (ms : Z)
| GetAllDevices
| UploadImageFile (imageUrl imageName path : string)
| UpdateFirmware (kind imageName : string) (mode : mval) (path : string)
| BmcReset (flag : bool)
| WarmReset (flag : bool)
| LoggerError (message : string) (error : option error) (body : JS.value) (nodeId : string)
| Done (err : option error).

(** ** Promises

    A promise chain is a computation over the job object that leaves a trace
    and either resolves or rejects. A callback that throws rejects the
    promise it feeds. *)

Record run (A : Type) : Type := Run {
  trace : list event;
  this : job;
  outcome : result A
}.
Arguments Run {A} trace this outcome.
Arguments trace {A} r.
Arguments this {A} r.
Arguments outcome {A} r.

Definition M (A : Type) : Type := job -> run A.

Definition resolve {A} (a : A) : M A := fun self => Run [] self (Ok a).
Definition throw {A} (e : error) : M A := fun self => Run [] self (Throw e).
Definition emit (ev : event) : M unit := fun self => Run [ev] self (Ok tt).

(** [p.then(f)] *)
Definition then_ {A B} (p : M A) (f : A -> M B) : M B := fun self =>
  let r := p self in
  match outcome r with
  | Ok a => let r' := f a (this r) in Run (trace r ++ trace r') (this r') (outcome r')
  | Throw e => Run (trace r) (this r) (Throw e)
  end.

(** [p.catch(h)] *)
Definition catch_ {A} (p : M A) (h : error -> M A) : M A := fun self =>
  let r := p self in
  match outcome r with
  | Ok a => r
  | Throw e => let r' := h e (this r) in Run (trace r ++ trace r') (this r') (outcome r')
  end.

(** [Promise.try(f)] *)
Definition Promise_try {A} (f : unit -> M A) : M A := f tt.

Notation "p >>= f" := (then_ p f) (at level 50, left associativity).
Notation "'let*' x ':=' p 'in' k" := (then_ p (fun x => k))
  (at level 10, x name, p at level 100, k at level 200).
Notation "p ';;;' k" := (then_ p (fun _ => k))
  (at level 100, k at level 200, right associativity).

(** ** The job *)

Section diagUpdateFirmwareFactory.

(** The injected services, as far as the job uses them. *)

(** [new DiagTool(settings, nodeId)], with [settings = {host: ...}]. *)
Variable DiagTool : string -> string -> agent.

(** [assert.isIP(ip, version)] holds. *)
Variable isIP : string -> Z -> bool.

(** [_.capitalize] *)
Variable capitalize : string -> string.

(** [ToNumber] of the runtime on strings, arrays and objects. *)
Variable toNumber : JS.value -> result (option Z).

(** [assert.isIP(ip, version)] *)
Definition assert_isIP (ip : string) (version : Z) : M unit :=
  if isIP ip version then resolve tt else throw (AssertionError "isIP").

(** [assert.isIn(value, values)]: the value, as a string, is one of
    [values]. *)
Definition assert_isIn (v : mval) (values : list string) : M unit :=
  match v with
  | MString s =>
      if bool_decide (s ∈ values) then resolve tt else throw (AssertionError "isIn")
  | MNumber n =>
      if bool_decide (JS.numberToString n ∈ values) then resolve tt
      else throw (AssertionError "isIn")
  | MUndefined | MBuiltin _ => throw (AssertionError "isIn")
  end.

(** Modelled from the spec: [BaseJob] (lib/jobs/base-job.js) is not among
    the sources. Its constructor keeps the options, the context and the
    task id ("construction from (options, context, id)"), and [_done] is
    the single terminal signal [complete(error?)]. *)
Definition _done (err : option error) : M unit := emit (Done err).

(** The constructor. [options.skipReset || false] *)
Definition DiagUpdateFirmware (options : Options.t) (context : Context.t)
    (taskId : string) : result job :=
  Ok {| options := options; context := context; taskId := taskId;
        nodeId := Context.target context;
        imageUrl := Options.imageUrl options;
        imageName := Options.imageName options;
        imageMode := Options.imageMode options;
        firmwareType := Options.firmwareType options;
        skipReset := default false (Options.skipReset options) || false;
        diagImagePath := "/uploads";
        spiModeMapping :=
          <["fullbios" := "0"]> (<["bios" := "1"]> (<["uefi" := "2"]>
          (<["serdes" := "3"]> (<["post" := "4"]> (<["me" := "5"]> ∅)))));
        bmcModeMapping :=
          <["ssp" := "0x142"]> (<["bmcapp" := "0x140"]>
          (<["bootblock" := "0x144"]> (<["adaptivecooling" := "0x145"]>
          (<["fullbmc" := "0x5f"]> ∅))));
        diagTool := None;
        retryCount := 6;
        retryDuration := 5000 |}.

(** A call [self.diagTool.name(...)]: the empty object has no methods. *)
Definition call {A} (name : string) (ev : event) (f : agent -> result A) : M A :=
  fun self =>
    match diagTool self with
    | Some tool => Run [ev] self (f tool)
    | None =>
        Run [] self (Throw (TypeError ("self.diagTool." +:+ name +:+ " is not a function")))
    end.

(** Modelled from the spec: [DiagTool.retrySyncDiscovery(delay, retries)]
    is not among the sources. "Retries a fixed number of times (6)
    separated by a fixed delay (5000 ms). Exhausting retries without
    success fails the job with a discovery-timeout error": [retries]
    attempts, a delay between two of them, the first success ends it. *)
Fixpoint retryLoop (tool : agent) (delay : Z) (attempt retries : nat) : M unit :=
  match retries with
  | O => throw DiscoveryTimeout
  | S n =>
      emit (SyncDiscovery attempt) ;;;
      match syncDiscovery tool attempt with
      | Ok _ => resolve tt
      | Throw _ =>
          match n with
          | O => throw DiscoveryTimeout
          | S _ => emit (Delay delay) ;;; retryLoop tool delay (S attempt) n
          end
      end
  end.

(** [self.diagTool.retrySyncDiscovery(delay, retries)] *)
Definition retrySyncDiscovery (delay retries : Z) : M unit := fun self =>
  match diagTool self with
  | Some tool =>
      (emit (RetrySyncDiscovery delay retries) ;;;
       retryLoop tool delay 0 (Z.to_nat retries)) self
  | None =>
      Run [] self (Throw (TypeError "self.diagTool.retrySyncDiscovery is not a function"))
  end.

(** [getNodeIp] *)
Definition getNodeIp : M string := fun self =>
  let ip := Context.nodeIp (context self) in
  (assert_isIP ip 4 ;;;
   resolve ip) self.

(** [parseSpiMode]: [_.isNaN(parseInt(mode))] selects the table, otherwise
    [_(mode).toString()] is returned. *)
Definition parseSpiMode (self : job) (mode : mode) : mval :=
  let _mode := parseInt mode in
  match _mode with
  | None => getProperty (spiModeMapping self) (modeToString mode)
  | Some _ => MString (modeToString mode)
  end.

(** [parseBmcMode]: [_.startsWith] converts its argument to a string. *)
Definition parseBmcMode (self : job) (mode : mode) : mval :=
  if negb (JS.startsWith (modeToString mode) "0x")
  then getProperty (bmcModeMapping self) (modeToString mode)
  else modeValue mode.

(** [updateBmc] *)
Definition updateBmc (imageName : string) (imageMode : mode)
    (diagImagePath : string) : M unit := fun self =>
  let _imageMode := parseBmcMode self imageMode in
  (assert_isIn _imageMode ["0x142"; "0x140"; "0x144"; "0x145"; "0x5f"] ;;;
   call "updateFirmware" (UpdateFirmware "bmc" imageName _imageMode diagImagePath)
        (fun tool => updateFirmware tool "bmc" imageName _imageMode diagImagePath)
   >>= (fun _ => fun self =>
     (if negb (skipReset self)
      then call "bmcReset" (BmcReset false) (fun tool => bmcReset tool false)
      else resolve tt) self)) self.

(** [body.result[body.result.length-2].atomic_test_data.secure_firmware_update] *)
Definition readResetFlag (body : JS.value) : result JS.value :=
  match JS.get body "result" with
  | Throw e => Throw e
  | Ok result =>
      match JS.get result "length" with
      | Throw e => Throw e
      | Ok len =>
          match JS.minus2 toNumber len with
          | Throw e => Throw e
          | Ok index =>
              match JS.getIndex result index with
              | Throw e => Throw e
              | Ok entry =>
                  match JS.get entry "atomic_test_data" with
                  | Throw e => Throw e
                  | Ok data => JS.get data "secure_firmware_update"
                  end
              end
          end
      end
  end.

(** [updateSpi] *)
Definition updateSpi (imageName : string) (imageMode : mode)
    (diagImagePath : string) : M unit := fun self =>
  let _imageMode := parseSpiMode self imageMode in
  (assert_isIn _imageMode ["0"; "1"; "2"; "3"; "4"; "5"] ;;;
   call "updateFirmware" (UpdateFirmware "spi" imageName _imageMode diagImagePath)
        (fun tool => updateFirmware tool "spi" imageName _imageMode diagImagePath)
   >>= (fun body => fun self =>
     let '(resetFlag, error) :=
       match readResetFlag body with
       | Ok flag => (flag, None)
       | Throw err => (JS.Undefined, Some err)
       end in
     let parseFailed :=
       negb (JS.isEqual resetFlag "Issue warm reset NOW!") || bool_decide (is_Some error) in
     (if parseFailed
      then emit (LoggerError "Failed to get reset flags from diag" error body (nodeId self)) ;;;
           throw (Error "Failed to get reset flags from diag")
      else resolve tt) self)
   >>= (fun _ => fun self =>
     (if negb (skipReset self)
      then call "warmReset" (WarmReset false) (fun tool => warmReset tool false)
      else resolve tt) self)) self.

(** [self[method]]: the members of the job whose name begins with
    [update]. *)
Definition member (method : string) : option (string -> mode -> string -> M unit) :=
  if bool_decide (method = "updateBmc") then Some updateBmc
  else if bool_decide (method = "updateSpi") then Some updateSpi
  else None.

(** The callbacks of the chain in [_run], in order. *)

(** [self.diagTool = new DiagTool(settings, self.nodeId)] *)
Definition newDiagTool (host : string) : M unit := fun self =>
  Run [NewDiagTool host (nodeId self)]
      (set_diagTool self (DiagTool host (nodeId self))) (Ok tt).

(** The callback of [Promise.try]: the address, the agent client,
    discovery. *)
Definition discovering (self : job) : M unit :=
  let* host := getNodeIp in
  newDiagTool host ;;;
  retrySyncDiscovery (retryDuration self) (retryCount self).

(** [self.diagTool.getAllDevices()] *)
Definition enumerating : M unit :=
  call "getAllDevices" GetAllDevices getAllDevices.

(** [self.diagTool.uploadImageFile(self.imageUrl, self.imageName, '/api/upload/file')] *)
Definition uploading (self : job) : M unit :=
  call "uploadImageFile"
       (UploadImageFile (imageUrl self) (imageName self) "/api/upload/file")
       (fun tool => uploadImageFile tool (imageUrl self) (imageName self)
                                    "/api/upload/file").

(** [self[method](self.imageName, self.imageMode, self.diagImagePath)]: the
    call throws when the name is no member; the runtime names the callee as
    it is written. *)
Definition dispatching (self : job) : M unit :=
  let method := "update" +:+ capitalize (firmwareType self) in
  match member method with
  | Some f => f (imageName self) (imageMode self) (diagImagePath self)
  | None => throw (TypeError "self[method] is not a function")
  end.

(** The procedure that [dispatching] calls, in its two parts. [updating]
    is the lookup of the procedure and its body up to the last callback:
    the translation and the check of the mode, the request to the agent
    and, for SPI, the callback that reads the response (lines 78-79 with
    147-150 of [updateBmc] and 168-191 of [updateSpi]). *)
Definition updating (self0 : job) : M unit := fun self =>
  let method := "update" +:+ capitalize (firmwareType self0) in
  (if bool_decide (method = "updateBmc") then
     let _imageMode := parseBmcMode self (imageMode self0) in
     assert_isIn _imageMode ["0x142"; "0x140"; "0x144"; "0x145"; "0x5f"] ;;;
     call "updateFirmware"
          (UpdateFirmware "bmc" (imageName self0) _imageMode (diagImagePath self0))
          (fun tool => updateFirmware tool "bmc" (imageName self0) _imageMode
                                      (diagImagePath self0)) ;;;
     resolve tt
   else if bool_decide (method = "updateSpi") then
     let _imageMode := parseSpiMode self (imageMode self0) in
     assert_isIn _imageMode ["0"; "1"; "2"; "3"; "4"; "5"] ;;;
     call "updateFirmware"
          (UpdateFirmware "spi" (imageName self0) _imageMode (diagImagePath self0))
          (fun tool => updateFirmware tool "spi" (imageName self0) _imageMode
                                      (diagImagePath self0))
     >>= (fun body => fun self =>
       let '(resetFlag, error) :=
         match readResetFlag body with
         | Ok flag => (flag, None)
         | Throw err => (JS.Undefined, Some err)
         end in
       let parseFailed :=
         negb (JS.isEqual resetFlag "Issue warm reset NOW!") || bool_decide (is_Some error) in
       (if parseFailed
        then emit (LoggerError "Failed to get reset flags from diag" error body (nodeId self)) ;;;
             throw (Error "Failed to get reset flags from diag")
        else resolve tt) self)
   else throw (TypeError "self[method] is not a function")) self.

(** [resetting] is the last callback of the procedure: the reset of the
    kind that was updated, unless [skipReset] is set (lines 151-157 of
    [updateBmc] and 192-196 of [updateSpi]). *)
Definition resetting (self0 : job) : M unit := fun self =>
  let method := "update" +:+ capitalize (firmwareType self0) in
  (if negb (skipReset self)
   then if bool_decide (method = "updateBmc")
        then call "bmcReset" (BmcReset false) (fun tool => bmcReset tool false)
        else call "warmReset" (WarmReset false) (fun tool => warmReset tool false)
   else resolve tt) self.

(** [_run] *)
Definition _run : M unit := fun self =>
  catch_
    (Promise_try (fun _ => discovering self)
     >>= (fun _ => enumerating)
     >>= (fun _ => uploading self)
     >>= (fun _ => dispatching self)
     >>= (fun _ => _done None))
    (fun err => _done (Some err))
    self.

(** The chain of [_run] up to the upload. *)
Definition uploaded (self : job) : run unit :=
  (Promise_try (fun _ => discovering self)
   >>= (fun _ => enumerating)
   >>= (fun _ => uploading self)) self.

(** The chain of [_run] before its last two callbacks. *)
Definition dispatched (self : job) : run unit :=
  (Promise_try (fun _ => discovering self)
   >>= (fun _ => enumerating)
   >>= (fun _ => uploading self)
   >>= (fun _ => dispatching self)) self.

(** The agent client of a job, once [_run] has created it. *)
Definition toolOf (self : job) : agent :=
  DiagTool (Context.nodeIp (context self)) (nodeId self).

End diagUpdateFirmwareFactory.

(** ** Concrete services for the closed examples *)

(** [_.capitalize] on ASCII strings: the first character in upper case
    (lodash 4 also puts the rest in lower case, which makes no difference on
    the strings used below). *)
Definition capitalizeFirst (s : string) : string :=
  match s with
  | String c rest =>
      let n := nat_of_ascii c in
      String (if (97 <=? n)%nat && (n <=? 122)%nat then ascii_of_nat (n - 32) else c) rest
  | EmptyString => EmptyString
  end.

(** The parts of [s] between the occurrences of [sep]. *)
Fixpoint splitOn (sep : ascii) (s : string) : list string :=
  match s with
  | EmptyString => [EmptyString]
  | String c rest =>
      if bool_decide (c = sep) then EmptyString :: splitOn sep rest
      else match splitOn sep rest with
           | part :: parts => String c part :: parts
           | [] => [String c EmptyString]
           end
  end.

(** Dotted quads: four groups of one to three decimal digits, none above
    255; version 4 only. *)
Definition isIPv4 (ip : string) (version : Z) : bool :=
  (version =? 4) &&
  match splitOn "." ip with
  | [a; b; c; d] =>
      forallb (fun part =>
                 (1 <=? String.length part)%nat && (String.length part <=? 3)%nat &&
                 forallb JS.isDecimalDigit (list_ascii_of_string part) &&
                 match JS.digitsPrefix 10 part None with
                 | Some n => n <=? 255
                 | None => false
                 end)
              [a; b; c; d]
  | _ => false
  end.

(** An agent on which every call succeeds; [updateFirmware] resolves with
    [body]. *)
Definition agentOk (body : JS.value) : agent :=
  {| syncDiscovery := fun _ => Ok tt;
     getAllDevices := Ok tt;
     uploadImageFile := fun _ _ _ => Ok tt;
     updateFirmware := fun _ _ _ _ => Ok body;
     bmcReset := fun _ => Ok tt;
     warmReset := fun _ => Ok tt |}.

(** An agent that never answers discovery. *)
Definition agentSilent : agent :=
  {| syncDiscovery := fun _ => Throw (Rejected "no answer");
     getAllDevices := Ok tt;
     uploadImageFile := fun _ _ _ => Ok tt;
     updateFirmware := fun _ _ _ _ => Ok JS.Undefined;
     bmcReset := fun _ => Ok tt;
     warmReset := fun _ => Ok tt |}.

Definition resetPrompt : JS.value :=
  JS.Obj [("atomic_test_data", JS.Obj [("secure_firmware_update", JS.Str "Issue warm reset NOW!")])].

(** A response whose second-to-last entry carries the reset prompt. *)
Definition bodyAccepted : JS.value :=
  JS.Obj [("result", JS.Arr [JS.Obj []; resetPrompt; JS.Obj []])].

(** A response whose [result] is not a sequence but a plain object with the
    single key [NaN]. *)
Definition bodyNaN : JS.value :=
  JS.Obj [("result", JS.Obj [("NaN", resetPrompt)])].

Definition sampleOptions (firmwareType : string) (imageMode : mode)
    (skipReset : option bool) : Options.t :=
  {| Options.imageUrl := "http://10.1.1.1/bios.bin";
     Options.imageName := "bios.bin";
     Options.imageMode := imageMode;
     Options.firmwareType := firmwareType;
     Options.skipReset := skipReset |}.

Definition sampleContext (nodeIp : string) : Context.t :=
  {| Context.target := "node-1"; Context.nodeIp := nodeIp |}.

(** ** The statements' vocabulary *)

(** A numeral: a decimal digit first, and no [x] after it. *)
Definition numeral (s : string) : Prop :=
  exists c rest, JS.isDecimalDigit c = true /\
    (forall r, rest <> String "x" r) /\ (forall r, rest <> String "X" r) /\
    s = String c rest.

(** The SPI and BMC mappings as the specification lists them. *)
Definition spiMappingSpec : list (string * string) :=
  [("fullbios", "0"); ("bios", "1"); ("uefi", "2"); ("serdes", "3"); ("post", "4"); ("me", "5")].

Definition bmcMappingSpec : list (string * string) :=
  [("ssp", "0x142"); ("bmcapp", "0x140"); ("bootblock", "0x144");
   ("adaptivecooling", "0x145"); ("fullbmc", "0x5f")].

Definition spiValid : list string := ["0"; "1"; "2"; "3"; "4"; "5"].
Definition bmcValid : list string := ["0x142"; "0x140"; "0x144"; "0x145"; "0x5f"].

(** The acceptance rule of the SPI response in the specification's words:
    the [result] of the body is a sequence, it has a second-to-last entry,
    and the nested field [atomic_test_data.secure_firmware_update] of that
    entry is the reset prompt. *)
Definition secondToLastHasPrompt (body : JS.value) : bool :=
  match body with
  | JS.Obj fields =>
      match JS.ownProperty fields "result" with
      | JS.Arr entries =>
          (2 <=? length entries)%nat &&
          match entries !! (length entries - 2)%nat with
          | Some (JS.Obj entry) =>
              match JS.ownProperty entry "atomic_test_data" with
              | JS.Obj data =>
                  JS.isEqual (JS.ownProperty data "secure_firmware_update")
                             "Issue warm reset NOW!"
              | _ => false
              end
          | _ => false
          end
      | _ => false
      end
  | _ => false
  end.

(** An entry carries the reset prompt: it is an object whose
    [atomic_test_data] is an object whose [secure_firmware_update] is the
    prompt. *)
Definition entryHasPrompt (entry : JS.value) : bool :=
  match entry with
  | JS.Obj fields =>
      match JS.ownProperty fields "atomic_test_data" with
      | JS.Obj data =>
          JS.isEqual (JS.ownProperty data "secure_firmware_update") "Issue warm reset NOW!"
      | _ => false
      end
  | _ => false
  end.

(** A response outside the acceptance rule that carries the prompt all the
    same: its [result] is no sequence but a plain object, and the property
    of that object named by [length - 2] (["NaN"] when it has no [length])
    is an entry with the prompt. *)
Definition keyedResultHasPrompt (toNumber : JS.value -> result (option Z))
    (body : JS.value) : bool :=
  match body with
  | JS.Obj fields =>
      match JS.ownProperty fields "result" with
      | JS.Obj properties =>
          match JS.minus2 toNumber (JS.ownProperty properties "length") with
          | Ok index => entryHasPrompt (JS.ownProperty properties (JS.numberKey index))
          | Throw _ => false
          end
      | _ => false
      end
  | _ => false
  end.

(** The error a settled promise carries, if any. *)
Definition errorOf {A} (r : result A) : option error :=
  match r with
  | Ok _ => None
  | Throw e => Some e
  end.

Definition isDone (ev : event) : bool :=
  match ev with
  | Done _ => true
  | _ => false
  end.

(** No end signal among the events. *)
Definition noDone (evs : list event) : Prop :=
  forallb (fun ev => negb (isDone ev)) evs = true.

Definition isReset (ev : event) : bool :=
  match ev with
  | BmcReset _ | WarmReset _ => true
  | _ => false
  end.

(** The events of discovery, enumeration and upload. *)
Definition beforeDispatch (ev : event) : bool :=
  match ev with
  | NewDiagTool _ _ | RetrySyncDiscovery _ _ | SyncDiscovery _ | Delay _
  | GetAllDevices | UploadImageFile _ _ _ => true
  | _ => false
  end.

(** The stage of the job an event belongs to: discovery, enumeration,
    upload, update, reset; the end signal belongs to none. *)
Definition stageOf (ev : event) : option nat :=
  match ev with
  | NewDiagTool _ _ | RetrySyncDiscovery _ _ | SyncDiscovery _ | Delay _ => Some 0%nat
  | GetAllDevices => Some 1%nat
  | UploadImageFile _ _ _ => Some 2%nat
  | UpdateFirmware _ _ _ _ | LoggerError _ _ _ _ => Some 3%nat
  | BmcReset _ | WarmReset _ => Some 4%nat
  | Done _ => None
  end.

(** The agent [tool], except that every firmware update resolves with
    [body]. *)
Definition withBody (tool : agent) (body : JS.value) : agent :=
  {| syncDiscovery := syncDiscovery tool;
     getAllDevices := getAllDevices tool;
     uploadImageFile := uploadImageFile tool;
     updateFirmware := fun _ _ _ _ => Ok body;
     bmcReset := bmcReset tool;
     warmReset := warmReset tool |}.

(** Stages run one after the other from the job object [self]: the trace
    they leave, the job object at the end, and the error of the first stage
    that fails, after which no stage runs. *)
Inductive sequential : list (M unit) -> job -> list event -> job -> option error -> Prop :=
| sequential_nil self :
    sequential [] self [] self None
| sequential_next stage stages self evs self' err :
    outcome (stage self) = Ok tt ->
    sequential stages (this (stage self)) evs self' err ->
    sequential (stage :: stages) self (trace (stage self) ++ evs) self' err
| sequential_fail stage stages self e :
    outcome (stage self) = Throw e ->
    sequential (stage :: stages) self (trace (stage self)) (this (stage self)) (Some e).

(** [retries] failed discovery attempts from attempt number [attempt] on,
    a delay between two of them. *)
Fixpoint failedAttempts (delay : Z) (attempt retries : nat) : list event :=
  match retries with
  | O => []
  | S O => [SyncDiscovery attempt]
  | S n => SyncDiscovery attempt :: Delay delay :: failedAttempts delay (S attempt) n
  end.

(** The events of the discovery loop. *)
Definition isAttempt (ev : event) : bool :=
  match ev with
  | SyncDiscovery _ | Delay _ => true
  | _ => false
  end.

(** The ways the update stage of a job can go once the agent client
    [tool] is in place: the trace it leaves and how it settles. *)
Inductive dispatchResult (capitalize : string -> string)
    (toNumber : JS.value -> result (option Z)) (self : job) (tool : agent) :
    list event -> result unit -> Prop :=
| dispatch_unknown :
    capitalize (firmwareType self) <> "Bmc" ->
    capitalize (firmwareType self) <> "Spi" ->
    dispatchResult capitalize toNumber self tool []
      (Throw (TypeError "self[method] is not a function"))
| dispatch_bmc_invalid :
    capitalize (firmwareType self) = "Bmc" ->
    (forall v, parseBmcMode self (imageMode self) = MString v -> v ∉ bmcValid) ->
    dispatchResult capitalize toNumber self tool [] (Throw (AssertionError "isIn"))
| dispatch_bmc_refused v e :
    capitalize (firmwareType self) = "Bmc" ->
    parseBmcMode self (imageMode self) = MString v -> v ∈ bmcValid ->
    updateFirmware tool "bmc" (imageName self) (MString v) (diagImagePath self) = Throw e ->
    dispatchResult capitalize toNumber self tool
      [UpdateFirmware "bmc" (imageName self) (MString v) (diagImagePath self)] (Throw e)
| dispatch_bmc_updated v body :
    capitalize (firmwareType self) = "Bmc" ->
    parseBmcMode self (imageMode self) = MString v -> v ∈ bmcValid ->
    updateFirmware tool "bmc" (imageName self) (MString v) (diagImagePath self) = Ok body ->
    dispatchResult capitalize toNumber self tool
      (UpdateFirmware "bmc" (imageName self) (MString v) (diagImagePath self)
         :: (if skipReset self then [] else [BmcReset false]))
      (if skipReset self then Ok tt else bmcReset tool false)
| dispatch_spi_invalid :
    capitalize (firmwareType self) = "Spi" ->
    (forall v, parseSpiMode self (imageMode self) = MString v -> v ∉ spiValid) ->
    dispatchResult capitalize toNumber self tool [] (Throw (AssertionError "isIn"))
| dispatch_spi_refused v e :
    capitalize (firmwareType self) = "Spi" ->
    parseSpiMode self (imageMode self) = MString v -> v ∈ spiValid ->
    updateFirmware tool "spi" (imageName self) (MString v) (diagImagePath self) = Throw e ->
    dispatchResult capitalize toNumber self tool
      [UpdateFirmware "spi" (imageName self) (MString v) (diagImagePath self)] (Throw e)
| dispatch_spi_unconfirmed v body :
    capitalize (firmwareType self) = "Spi" ->
    parseSpiMode self (imageMode self) = MString v -> v ∈ spiValid ->
    updateFirmware tool "spi" (imageName self) (MString v) (diagImagePath self) = Ok body ->
    readResetFlag toNumber body <> Ok (JS.Str "Issue warm reset NOW!") ->
    dispatchResult capitalize toNumber self tool
      [UpdateFirmware "spi" (imageName self) (MString v) (diagImagePath self);
       LoggerError "Failed to get reset flags from diag"
                   (errorOf (readResetFlag toNumber body)) body (nodeId self)]
      (Throw (Error "Failed to get reset flags from diag"))
| dispatch_spi_updated v body :
    capitalize (firmwareType self) = "Spi" ->
    parseSpiMode self (imageMode self) = MString v -> v ∈ spiValid ->
    updateFirmware tool "spi" (imageName self) (MString v) (diagImagePath self) = Ok body ->
    readResetFlag toNumber body = Ok (JS.Str "Issue warm reset NOW!") ->
    dispatchResult capitalize toNumber self tool
      (UpdateFirmware "spi" (imageName self) (MString v) (diagImagePath self)
         :: (if skipReset self then [] else [WarmReset false]))
      (if skipReset self then Ok tt else warmReset tool false).

(** Closed decidable goals, by evaluation. *)
Ltac decide_closed :=
  match goal with
  | |- ?P => apply (@bool_decide_unpack P _); vm_compute; exact I
  end.

(** ** The definitions on concrete inputs *)

(** The string form of numbers: exact below 2^53, then the shortest digits
    that tell the number apart, in exponential form from 10^21 on. *)
Example numberToString_examples :
  JS.numberToString 0 = "0" /\ JS.numberToString (-17) = "-17" /\
  JS.numberToString (2 ^ 53 + 1) = "9007199254740992" /\
  JS.numberToString (2 ^ 64) = "18446744073709552000" /\
  JS.numberToString (10 ^ 21 - 1) = "1e+21" /\
  JS.numberToString (10 ^ 21) = "1e+21" /\
  JS.numberToString (- 2 ^ 70) = "-1.1805916207174113e+21" /\
  JS.numberToString 123456789012345678901234567890 = "1.2345678901234568e+29".
Proof. repeat split; vm_compute; reflexivity. Qed.

Example parseInt_examples :
  parseInt (ModeStr "3") = Some 3 /\ parseInt (ModeInt 5) = Some 5 /\
  parseInt (ModeStr " 42px") = Some 42 /\ parseInt (ModeStr "-0x1F") = Some (-31) /\
  parseInt (ModeStr "uefi") = None /\ parseInt (ModeStr "") = None /\
  parseInt (ModeStr "0x") = None.
Proof. repeat split; reflexivity. Qed.

Example capitalizeFirst_examples :
  capitalizeFirst "bmc" = "Bmc" /\ capitalizeFirst "spi" = "Spi" /\
  capitalizeFirst "Bmc" = "Bmc" /\ capitalizeFirst "" = "" /\
  capitalizeFirst "bios" = "Bios".
Proof. repeat split; reflexivity. Qed.

Example isIPv4_examples :
  isIPv4 "10.1.1.3" 4 = true /\ isIPv4 "10.1.1.300" 4 = false /\
  isIPv4 "10.1.1" 4 = false /\ isIPv4 "" 4 = false /\ isIPv4 "a.b.c.d" 4 = false.
Proof. repeat split; reflexivity. Qed.

(** The expression of [updateSpi] on some bodies: the prompt in place, a
    sequence that is too short, an entry without the field, another value,
    a body without [result]. *)
Example readResetFlag_examples :
  readResetFlag JS.toNumberDecimal bodyAccepted = Ok (JS.Str "Issue warm reset NOW!") /\
  readResetFlag JS.toNumberDecimal (JS.Obj [("result", JS.Arr [resetPrompt])])
    = Throw (JS.cannotRead "atomic_test_data" "undefined") /\
  readResetFlag JS.toNumberDecimal (JS.Obj [("result", JS.Arr [JS.Obj []; JS.Obj []])])
    = Throw (JS.cannotRead "secure_firmware_update" "undefined") /\
  readResetFlag JS.toNumberDecimal
    (JS.Obj [("result", JS.Arr [JS.Obj [("atomic_test_data",
                                  JS.Obj [("secure_firmware_update", JS.Str "failed")])];
                                JS.Obj []])])
    = Ok (JS.Str "failed") /\
  readResetFlag JS.toNumberDecimal (JS.Obj [("error", JS.Str "busy")])
    = Throw (JS.cannotRead "length" "undefined").
Proof. repeat split; reflexivity. Qed.

(** ** Decimal literals *)

Lemma decimal_digit_facts (c : ascii) :
  JS.isDecimalDigit c = true ->
  JS.isWhiteSpace c = false /\ c <> "-"%char /\ c <> "+"%char /\
  c <> "x"%char /\ c <> "X"%char /\
  exists d, JS.digitValue c = Some d /\ (d <? 10) = true.
Proof.
  destruct c as [[] [] [] [] [] [] [] []]; vm_compute; intros H; try discriminate H;
    repeat split; try discriminate; eexists; split; reflexivity.
Qed.

Lemma decimal_digit_first (c : ascii) :
  JS.isDecimalDigit c = true -> c <> "-"%char /\ c <> "x"%char /\ c <> "X"%char.
Proof.
  destruct c as [[] [] [] [] [] [] [] []]; vm_compute; intros H; try discriminate H;
    repeat split; discriminate.
Qed.

Lemma string_of_uint_digits (d : Decimal.uint) :
  forallb JS.isDecimalDigit (list_ascii_of_string (NilEmpty.string_of_uint d)) = true.
Proof.
  induction d; simpl; auto.
Qed.

(** The decimal literal of an integer is a non-empty run of decimal digits,
    after a minus sign when the integer is negative. *)
Lemma decimal_shape (n : Z) :
  exists c ds,
    forallb JS.isDecimalDigit (c :: list_ascii_of_string ds) = true /\
    (0 <= n -> JS.decimal n = String c ds) /\
    (n < 0 -> JS.decimal n = String "-" (String c ds)).
Proof.
  assert (Hu : forall p, exists c ds,
            NilZero.string_of_uint (Pos.to_uint p) = String c ds /\
            forallb JS.isDecimalDigit (c :: list_ascii_of_string ds) = true).
  { intros p. pose proof (string_of_uint_digits (Pos.to_uint p)) as Hd.
    pose proof (DecimalPos.Unsigned.to_uint_nonnil p) as Hn.
    unfold NilZero.string_of_uint.
    destruct (Pos.to_uint p); try congruence; simpl in *;
      eexists _, _; split; try reflexivity; exact Hd. }
  unfold JS.decimal. destruct n as [|p|p]; simpl.
  - exists "0"%char, EmptyString. split; [reflexivity|]. split; [reflexivity | lia].
  - destruct (Hu p) as (c & ds & E & Hd). exists c, ds. split; [exact Hd|].
    split; [intros _; exact E | lia].
  - destruct (Hu p) as (c & ds & E & Hd). exists c, ds. split; [exact Hd|].
    split; [lia | intros _; f_equal; exact E].
Qed.

Lemma decimal_inj (a b : Z) : JS.decimal a = JS.decimal b -> a = b.
Proof.
  assert (Hnn : forall z, Z.to_int z <> Decimal.Pos Decimal.Nil /\
                          Z.to_int z <> Decimal.Neg Decimal.Nil).
  { intros [|p|p]; simpl; split; try discriminate; intros [= E];
      exact (DecimalPos.Unsigned.to_uint_nonnil p E). }
  unfold JS.decimal. intros E.
  apply DecimalZ.to_int_inj.
  destruct (Hnn a) as [Ha1 Ha2]. destruct (Hnn b) as [Hb1 Hb2].
  pose proof (NilZero.isi _ Ha1 Ha2) as Ia. pose proof (NilZero.isi _ Hb1 Hb2) as Ib.
  rewrite E in Ia. congruence.
Qed.

Lemma decimal_opp (v : Z) : 0 < v -> JS.decimal (- v) = String "-" (JS.decimal v).
Proof. destruct v as [|p|p]; try lia. intros _. reflexivity. Qed.

(** Rounding keeps a number at or above 2^53 there. *)
Lemma roundDouble_large (a : Z) : 2 ^ 53 <= a -> 2 ^ 53 <= JS.roundDouble a.
Proof.
  intros Ha. unfold JS.roundDouble.
  destruct (a <? 2 ^ 53) eqn:E; [exact Ha|].
  assert (Hl : 53 <= Z.log2 a).
  { change 53 with (Z.log2 (2 ^ 53)) at 1. apply Z.log2_le_mono. exact Ha. }
  set (e := Z.log2 a - 52).
  assert (He : 1 <= e) by (unfold e; lia).
  assert (Hpos : 0 < 2 ^ e) by (apply Z.pow_pos_nonneg; lia).
  assert (Htwo : 2 <= 2 ^ e).
  { change 2 with (2 ^ 1) at 1. apply Z.pow_le_mono_r; lia. }
  assert (Hq : 2 ^ 52 <= Z.shiftr a e).
  { rewrite Z.shiftr_div_pow2 by lia. apply Z.div_le_lower_bound; [exact Hpos|].
    assert (Hs : 2 ^ Z.log2 a <= a) by (apply Z.log2_spec; change (2 ^ 53) with 9007199254740992 in Ha; lia).
    replace (Z.log2 a) with (e + 52) in Hs by (unfold e; lia).
    rewrite Z.pow_add_r in Hs by lia. lia. }
  rewrite Z.shiftl_mul_pow2 by lia.
  change (2 ^ 53) with (2 ^ 52 * 2).
  assert (Hq' : 2 ^ 52 <= (if (Z.shiftl 1 (e - 1) <? a - Z.shiftl (Z.shiftr a e) e) ||
                              ((a - Z.shiftl (Z.shiftr a e) e =? Z.shiftl 1 (e - 1)) &&
                               Z.odd (Z.shiftr a e))
                           then Z.shiftr a e + 1 else Z.shiftr a e)).
  { destruct (_ || _); lia. }
  change (2 ^ 52) with 4503599627370496 in *. nia.
Qed.

Lemma nearestWith_denotes (x p v : Z) :
  JS.nearestWith x p = Some v -> JS.roundDouble v = x.
Proof.
  unfold JS.nearestWith.
  destruct (JS.roundDouble (x / p * p) =? x) eqn:Elo;
    destruct (JS.roundDouble (x / p * p + p) =? x) eqn:Ehi; cbn [andb];
    try discriminate.
  - intros [= <-].
    destruct (_ <? _); [apply Z.eqb_eq; exact Elo|].
    destruct (_ <? _); [apply Z.eqb_eq; exact Ehi|].
    destruct (Z.even _); apply Z.eqb_eq; assumption.
  - intros [= <-]. apply Z.eqb_eq. exact Elo.
  - intros [= <-]. apply Z.eqb_eq. exact Ehi.
Qed.

Lemma shortestFrom_denotes (x : Z) (fuel : nat) (p : Z) :
  JS.shortestFrom x p fuel = x \/ JS.roundDouble (JS.shortestFrom x p fuel) = x.
Proof.
  revert p. induction fuel as [|fuel IH]; intros p; cbn [JS.shortestFrom]; [left; reflexivity|].
  destruct (JS.nearestWith x p) as [v|] eqn:E.
  - right. exact (nearestWith_denotes _ _ _ E).
  - destruct (p <=? 1); [left; reflexivity | apply IH].
Qed.

Lemma shortest_large (x : Z) : 2 ^ 53 <= x -> 2 ^ 53 <= JS.shortest x.
Proof.
  intros Hx. unfold JS.shortest.
  destruct (shortestFrom_denotes x (String.length (JS.decimal x))
              (10 ^ Z.of_nat (String.length (JS.decimal x) - 1))) as [E|E].
  - rewrite E. exact Hx.
  - destruct (Z.lt_ge_cases (JS.shortestFrom x (10 ^ Z.of_nat (String.length (JS.decimal x) - 1))
                               (String.length (JS.decimal x))) (2 ^ 53)) as [Hlt|Hge];
      [|exact Hge].
    unfold JS.roundDouble in E at 1. apply Z.ltb_lt in Hlt. rewrite Hlt in E.
    rewrite E. exact Hx.
Qed.

Lemma decimal_numeral (v : Z) : 0 <= v -> numeral (JS.decimal v).
Proof.
  intros Hv. destruct (decimal_shape v) as (c & ds & Hd & E & _).
  simpl in Hd. apply andb_prop in Hd as [Hc Hds].
  exists c, ds. split; [exact Hc|]. rewrite (E Hv).
  repeat split; intros r ->; simpl in Hds; discriminate Hds.
Qed.

Lemma exponential_shape (v : Z) :
  0 <= v ->
  exists c rest, JS.isDecimalDigit c = true /\
    JS.exponential v = String c rest /\
    ((exists r, rest = String "." r) \/ (exists r, rest = String "e" r)).
Proof.
  intros Hv. destruct (decimal_shape v) as (c & ds & Hd & E & _).
  simpl in Hd. apply andb_prop in Hd as [Hc _].
  exists c. unfold JS.exponential. rewrite (E Hv).
  destruct (JS.stripTrailingZeros ds); eexists; (split; [exact Hc|]);
    (split; [reflexivity|]); [right | left]; eexists; reflexivity.
Qed.

Lemma exponential_numeral (v : Z) : 0 <= v -> numeral (JS.exponential v).
Proof.
  intros Hv. destruct (exponential_shape v Hv) as (c & rest & Hc & E & Hr).
  exists c, rest. split; [exact Hc|]. rewrite E.
  repeat split; intros r ->; destruct Hr as [[r' Hr]|[r' Hr]]; discriminate Hr.
Qed.

(** The string form of a number is a numeral, after a minus sign when the
    number is negative. *)
Lemma numberToString_shape (n : Z) :
  exists s, numeral s /\
    (JS.numberToString n = s \/ JS.numberToString n = String "-" s).
Proof.
  unfold JS.numberToString.
  destruct (Z.abs n <? 2 ^ 53) eqn:Es.
  - destruct (Z.lt_ge_cases n 0) as [Hn|Hn].
    + exists (JS.decimal (- n)). split; [apply decimal_numeral; lia|]. right.
      rewrite <- decimal_opp by lia. f_equal. lia.
    + exists (JS.decimal n). split; [apply decimal_numeral; exact Hn|]. left. reflexivity.
  - apply Z.ltb_ge in Es.
    pose proof (shortest_large _ (roundDouble_large _ Es)) as Hv.
    set (v := JS.shortest (JS.roundDouble (Z.abs n))) in *.
    assert (Hv0 : 0 <= v) by (change (2 ^ 53) with 9007199254740992 in Hv; lia).
    exists (if v <? 10 ^ 21 then JS.decimal v else JS.exponential v). split.
    + destruct (v <? 10 ^ 21); [apply decimal_numeral | apply exponential_numeral]; exact Hv0.
    + destruct (n <? 0); [right | left]; reflexivity.
Qed.

(** The string form of an integer below 2^53 in magnitude is the string
    form of no other integer. *)
Lemma numberToString_small (n k : Z) :
  Z.abs k < 2 ^ 53 -> JS.numberToString n = JS.numberToString k -> n = k.
Proof.
  intros Hk. unfold JS.numberToString at 2.
  rewrite (proj2 (Z.ltb_lt _ _) Hk).
  unfold JS.numberToString.
  destruct (Z.abs n <? 2 ^ 53) eqn:Es; [apply decimal_inj|].
  apply Z.ltb_ge in Es.
  pose proof (shortest_large _ (roundDouble_large _ Es)) as Hv.
  set (v := JS.shortest (JS.roundDouble (Z.abs n))) in *.
  change (2 ^ 53) with 9007199254740992 in *.
  intros E. exfalso.
  destruct (v <? 10 ^ 21).
  - destruct (n <? 0).
    + rewrite <- decimal_opp in E by lia. apply decimal_inj in E. lia.
    + apply decimal_inj in E. lia.
  - destruct (exponential_shape v) as (c & rest & Hc & Ee & Hr); [lia|].
    rewrite Ee in E.
    destruct (decimal_digit_first c Hc) as (Hm & _).
    destruct (decimal_shape k) as (c' & ds & Hd & Epos & Eneg).
    simpl in Hd. apply andb_prop in Hd as [Hc' Hds].
    destruct (decimal_digit_first c' Hc') as (Hm' & _).
    destruct (n <? 0); destruct (Z.lt_ge_cases k 0) as [Hs|Hs];
      [rewrite (Eneg Hs) in E | rewrite (Epos Hs) in E
      | rewrite (Eneg Hs) in E | rewrite (Epos Hs) in E];
      injection E as E1 E2; try congruence; subst;
      destruct Hr as [[r Hr]|[r Hr]]; subst; simpl in Hds; discriminate Hds.
Qed.

Lemma digitsPrefix_some (radix : Z) (s : string) (a : Z) :
  exists v, JS.digitsPrefix radix s (Some a) = Some v.
Proof.
  revert a. induction s as [|c s IH]; intros a; simpl; eauto.
  destruct (JS.digitValue c) as [d|]; eauto.
  destruct (d <? radix); eauto.
Qed.

(** [parseInt] reads a number from a numeral, with or without a minus
    sign, whatever follows its first digit. *)
Lemma parseInt_numeral (s : string) :
  numeral s ->
  (exists v, JS.parseIntString s = Some v) /\
  (exists v, JS.parseIntString (String "-" s) = Some v).
Proof.
  intros (c & rest & Hc & Hx1 & Hx2 & ->).
  destruct (decimal_digit_facts c Hc) as (Hw & Hm & Hp & _ & _ & d & Ed & Hlt).
  assert (Ev : exists v, JS.digitsPrefix 10 (String c rest) None = Some v).
  { simpl. rewrite Ed, Hlt. apply digitsPrefix_some. }
  destruct Ev as [v Ev].
  assert (Er : match String c rest with
               | String "0" (String "x" r) => (16, r)
               | String "0" (String "X" r) => (16, r)
               | _ => (10, String c rest)
               end = (10, String c rest)).
  { destruct c as [[] [] [] [] [] [] [] []]; try reflexivity.
    destruct rest as [|x r]; try reflexivity.
    destruct x as [[] [] [] [] [] [] [] []]; try reflexivity;
      exfalso; first [eapply Hx1; reflexivity | eapply Hx2; reflexivity]. }
  unfold JS.parseIntString. split.
  - assert (Et : JS.trimStart (String c rest) = String c rest) by (simpl; now rewrite Hw).
    rewrite Et.
    assert (Es : match String c rest with
                 | String "-" r => (-1, r) | String "+" r => (1, r) | _ => (1, String c rest)
                 end = (1, String c rest)).
    { destruct c as [[] [] [] [] [] [] [] []]; try reflexivity; congruence. }
    rewrite Es, Er, Ev. simpl. eauto.
  - assert (Et : JS.trimStart (String "-" (String c rest)) = String "-" (String c rest))
      by reflexivity.
    rewrite Et. cbv zeta. cbv iota. rewrite Er, Ev. simpl. eauto.
Qed.

(** [parseInt] of a number is never NaN. *)
Lemma parseInt_number (n : Z) : exists v, parseInt (ModeInt n) = Some v.
Proof.
  unfold parseInt, modeToString.
  destruct (numberToString_shape n) as (s & Hs & [E|E]); rewrite E;
    apply (parseInt_numeral s Hs).
Qed.

(** The string form of a number does not begin with [0x]. *)
Lemma numberToString_no_hex_prefix (n : Z) :
  JS.startsWith (JS.numberToString n) "0x" = false.
Proof.
  unfold JS.startsWith.
  destruct (numberToString_shape n) as (s & (c & rest & Hc & Hx & _ & ->) & [E|E]);
    rewrite E; [|reflexivity].
  destruct (String.prefix "0x" (String c rest)) eqn:P; [|reflexivity].
  exfalso. cbn [String.prefix] in P.
  destruct (ascii_dec "0" c) as [<-|]; [|discriminate P].
  destruct rest as [|x r]; [discriminate P|].
  cbn [String.prefix] in P.
  destruct (ascii_dec "x" x) as [<-|]; [|discriminate P].
  eapply Hx. reflexivity.
Qed.

(** ** Mode translation *)

Lemma constructed_fields options ctx taskId self :
  DiagUpdateFirmware options ctx taskId = Ok self ->
  spiModeMapping self = list_to_map spiMappingSpec /\
  bmcModeMapping self = list_to_map bmcMappingSpec /\
  retryCount self = 6 /\ retryDuration self = 5000 /\
  diagTool self = None /\ diagImagePath self = "/uploads" /\
  nodeId self = Context.target ctx /\
  context self = ctx /\
  firmwareType self = Options.firmwareType options /\
  skipReset self = default false (Options.skipReset options).
Proof.
  intros H. injection H as <-. simpl. rewrite orb_false_r. repeat split.
Qed.

Lemma spi_lookup_unmapped (s : string) :
  s ∉ spiMappingSpec.*1 -> (list_to_map spiMappingSpec : gmap string string) !! s = None.
Proof.
  intros H. apply not_elem_of_list_to_map_1. exact H.
Qed.

(** C3 (amended): [parseSpiMode] returns the input's own string form whenever
    [parseInt] reads a number from it: the decimal literal for a number,
    the string itself, unchanged, for a string. Otherwise the input is
    looked up in the SPI mapping; a string that is neither a key of the
    mapping nor the name of a member inherited from [Object.prototype]
    yields [undefined]. Every valid identifier, name, number or decimal
    string, yields its code. *)
Theorem parseSpiMode_translation options context taskId self :
  DiagUpdateFirmware options context taskId = Ok self ->
  (forall m n, parseInt m = Some n -> parseSpiMode self m = MString (modeToString m)) /\
  (forall n, parseSpiMode self (ModeInt n) = MString (JS.numberToString n)) /\
  (forall m, parseInt m = None ->
     parseSpiMode self m = getProperty (list_to_map spiMappingSpec) (modeToString m)) /\
  (forall s, parseInt (ModeStr s) = None -> s ∉ spiMappingSpec.*1 ->
     s ∉ JS.objectPrototype -> parseSpiMode self (ModeStr s) = MUndefined) /\
  (forall name code, (name, code) ∈ spiMappingSpec ->
     parseSpiMode self (ModeStr name) = MString code) /\
  (forall n, 0 <= n <= 5 ->
     JS.numberToString n ∈ spiValid /\
     parseSpiMode self (ModeInt n) = MString (JS.numberToString n) /\
     parseSpiMode self (ModeStr (JS.numberToString n)) = MString (JS.numberToString n)).
Proof.
  intros H. destruct (constructed_fields _ _ _ _ H) as (Hspi & _).
  assert (Hnum : forall n, parseSpiMode self (ModeInt n) = MString (JS.numberToString n)).
  { intros n. unfold parseSpiMode. destruct (parseInt_number n) as [v ->]. reflexivity. }
  repeat split.
  - intros m n E. unfold parseSpiMode. rewrite E. reflexivity.
  - exact Hnum.
  - intros m E. unfold parseSpiMode. rewrite E, Hspi. reflexivity.
  - intros s E Hk Hp. unfold parseSpiMode. rewrite E, Hspi. unfold getProperty.
    simpl modeToString. rewrite (spi_lookup_unmapped s Hk).
    rewrite bool_decide_eq_false_2 by exact Hp. reflexivity.
  - intros name code Hin. unfold parseSpiMode. rewrite Hspi.
    unfold spiMappingSpec in Hin.
    repeat (apply elem_of_cons in Hin as [[= -> ->]|Hin]; [vm_compute; reflexivity|]).
    apply elem_of_nil in Hin. destruct Hin.
  - assert (n = 0 \/ n = 1 \/ n = 2 \/ n = 3 \/ n = 4 \/ n = 5) as Hn by lia.
    destruct Hn as [->|[->|[->|[->|[->| ->]]]]]; decide_closed.
  - apply Hnum.
  - assert (n = 0 \/ n = 1 \/ n = 2 \/ n = 3 \/ n = 4 \/ n = 5) as Hn by lia.
    unfold parseSpiMode.
    destruct Hn as [->|[->|[->|[->|[->| ->]]]]]; reflexivity.
Qed.

Lemma parseSpiMode_translation_witness :
  exists self,
    DiagUpdateFirmware (sampleOptions "spi" (ModeStr "uefi") None)
                       (sampleContext "10.1.1.3") "task" = Ok self /\
    parseSpiMode self (ModeStr "uefi") = MString "2" /\
    parseSpiMode self (ModeInt 4) = MString "4" /\
    parseSpiMode self (ModeStr "nosuchmode") = MUndefined.
Proof.
  eexists. split; [reflexivity|].
  destruct (parseSpiMode_translation
              (sampleOptions "spi" (ModeStr "uefi") None) (sampleContext "10.1.1.3") "task"
              _ eq_refl) as (_ & Hnum & _ & Hun & Hname & _).
  split; [apply Hname; decide_closed|].
  split; [apply (Hnum 4)|].
  apply Hun; [reflexivity | decide_closed | decide_closed].
Defined.

(** C3, as stated, fails on a string that [parseInt] reads but that is not
    the decimal literal of what it reads: ["0x10"] reads as 16 and comes
    back unchanged, neither as ["16"] nor as the [undefined] of a failed
    lookup. *)
Lemma parseSpiMode_not_decimal_form :
  exists self,
    DiagUpdateFirmware (sampleOptions "spi" (ModeStr "0x10") None)
                       (sampleContext "10.1.1.3") "task" = Ok self /\
    parseInt (ModeStr "0x10") = Some 16 /\
    parseSpiMode self (ModeStr "0x10") = MString "0x10" /\
    parseSpiMode self (ModeStr "0x10") <> MString (JS.numberToString 16) /\
    parseSpiMode self (ModeStr "0x10") <> MUndefined.
Proof.
  eexists. split; [reflexivity|].
  split; [reflexivity|]. split; [reflexivity|]. split; vm_compute; discriminate.
Qed.

(** C4: [parseBmcMode] returns an input that begins with [0x] unchanged and
    looks every other input up in the BMC mapping, so that every valid
    identifier yields its code. *)
Theorem parseBmcMode_translation options context taskId self :
  DiagUpdateFirmware options context taskId = Ok self ->
  (forall s, JS.startsWith s "0x" = true -> parseBmcMode self (ModeStr s) = MString s) /\
  (forall m, JS.startsWith (modeToString m) "0x" = false ->
     parseBmcMode self m = getProperty (list_to_map bmcMappingSpec) (modeToString m)) /\
  (forall n, JS.startsWith (modeToString (ModeInt n)) "0x" = false) /\
  (forall name code, (name, code) ∈ bmcMappingSpec ->
     code ∈ bmcValid /\ parseBmcMode self (ModeStr name) = MString code).
Proof.
  intros H. destruct (constructed_fields _ _ _ _ H) as (_ & Hbmc & _).
  split; [|split; [|split]].
  - intros s E. unfold parseBmcMode. simpl modeToString. rewrite E. reflexivity.
  - intros m E. unfold parseBmcMode. rewrite E, Hbmc. reflexivity.
  - intros n. apply numberToString_no_hex_prefix.
  - intros name code Hin. unfold parseBmcMode. rewrite Hbmc. unfold bmcMappingSpec in Hin.
    repeat (apply elem_of_cons in Hin as [[= -> ->]|Hin];
            [split; [decide_closed | vm_compute; reflexivity]|]).
    apply elem_of_nil in Hin. destruct Hin.
Qed.

Lemma parseBmcMode_translation_witness :
  exists self,
    DiagUpdateFirmware (sampleOptions "bmc" (ModeStr "fullbmc") None)
                       (sampleContext "10.1.1.3") "task" = Ok self /\
    parseBmcMode self (ModeStr "0x999") = MString "0x999" /\
    parseBmcMode self (ModeStr "fullbmc") = MString "0x5f".
Proof.
  eexists. split; [reflexivity|].
  destruct (parseBmcMode_translation
              (sampleOptions "bmc" (ModeStr "fullbmc") None) (sampleContext "10.1.1.3") "task"
              _ eq_refl) as (Hhex & _ & _ & Hname).
  split; [apply Hhex; reflexivity|].
  apply Hname. decide_closed.
Defined.

(** ** The update procedures *)

Lemma call_with_tool {A} (name : string) (ev : event) (f : agent -> result A)
    (self : job) (tool : agent) :
  diagTool self = Some tool -> call name ev f self = Run [ev] self (f tool).
Proof. intros H. unfold call. rewrite H. reflexivity. Qed.

Lemma assert_isIn_member (s : string) (values : list string) (self : job) :
  s ∈ values -> assert_isIn (MString s) values self = Run [] self (Ok tt).
Proof. intros H. unfold assert_isIn. rewrite bool_decide_eq_true_2 by exact H. reflexivity. Qed.

(** What [parseBmcMode] returns is never the number it was given. *)
Lemma parseBmcMode_not_number (self : job) (m : mode) (n : Z) :
  parseBmcMode self m <> MNumber n.
Proof.
  unfold parseBmcMode, getProperty.
  destruct (JS.startsWith (modeToString m) "0x") eqn:E; simpl.
  - destruct m as [s|k]; simpl; [discriminate|].
    simpl in E. rewrite numberToString_no_hex_prefix in E. discriminate E.
  - destruct (bmcModeMapping self !! modeToString m); [discriminate|].
    destruct (bool_decide _); discriminate.
Qed.

(** C5: in the BMC path the translated mode is checked against the five
    codes: [updateBmc] fails with the validation error, before anything is
    sent to the agent, exactly when the translation is not one of them; a
    raw code such as ["0x999"], passed through unchanged by the translation,
    is rejected in this way. *)
Theorem updateBmc_rejects_invalid_mode (self : job) (imageName : string)
    (imageMode : mode) (diagImagePath : string) :
  (forall s, parseBmcMode self imageMode = MString s -> s ∉ bmcValid)
  <-> updateBmc imageName imageMode diagImagePath self
        = Run [] self (Throw (AssertionError "isIn")).
Proof.
  split.
  - intros H. unfold updateBmc, then_.
    destruct (parseBmcMode self imageMode) as [|s|n|b] eqn:E; simpl; try reflexivity.
    + rewrite bool_decide_eq_false_2 by (apply H; reflexivity). reflexivity.
    + exfalso. exact (parseBmcMode_not_number _ _ _ E).
  - intros H s E Hv. revert H. unfold updateBmc, then_. rewrite E.
    unfold bmcValid in Hv. rewrite (assert_isIn_member s _ self Hv). simpl.
    unfold call. destruct (diagTool self) as [tool|]; simpl; [|discriminate].
    destruct (updateFirmware tool _ _ _ _); simpl; [|discriminate].
    destruct (skipReset self); simpl; [discriminate|].
    destruct (diagTool self); discriminate.
Qed.

Lemma updateBmc_rejects_invalid_mode_witness :
  exists self,
    DiagUpdateFirmware (sampleOptions "bmc" (ModeStr "0x999") None)
                       (sampleContext "10.1.1.3") "task" = Ok self /\
    parseBmcMode self (ModeStr "0x999") = MString "0x999" /\
    updateBmc "bios.bin" (ModeStr "0x999") "/uploads" self
      = Run [] self (Throw (AssertionError "isIn")).
Proof.
  eexists. split; [reflexivity|]. split; [reflexivity|].
  apply (proj1 (updateBmc_rejects_invalid_mode _ "bios.bin" (ModeStr "0x999") "/uploads")).
  intros s E. vm_compute in E. injection E as <-. decide_closed.
Defined.

Section UpdateProcedures.

Variable toNumber : JS.value -> result (option Z).

(** After the agent has taken the BMC image, only the reset is left. *)
Lemma updateBmc_after_update (self : job) (tool : agent) (imageName : string)
    (imageMode : mode) (diagImagePath m : string) (body : JS.value) :
  diagTool self = Some tool ->
  parseBmcMode self imageMode = MString m ->
  m ∈ bmcValid ->
  updateFirmware tool "bmc" imageName (MString m) diagImagePath = Ok body ->
  updateBmc imageName imageMode diagImagePath self
    = Run (UpdateFirmware "bmc" imageName (MString m) diagImagePath
             :: (if skipReset self then [] else [BmcReset false]))
          self
          (if skipReset self then Ok tt else bmcReset tool false).
Proof.
  intros Ht Hm Hv Hu. unfold updateBmc, then_. rewrite Hm. unfold bmcValid in Hv.
  rewrite (assert_isIn_member m _ self Hv). simpl.
  rewrite (call_with_tool _ _ _ self tool Ht). simpl. rewrite Hu.
  destruct (skipReset self); simpl; [reflexivity|].
  rewrite (call_with_tool _ _ _ self tool Ht). reflexivity.
Qed.

(** The SPI response carries the reset prompt: only the reset is left. *)
Lemma updateSpi_accepted (self : job) (tool : agent) (imageName : string)
    (imageMode : mode) (diagImagePath m : string) (body : JS.value) :
  diagTool self = Some tool ->
  parseSpiMode self imageMode = MString m ->
  m ∈ spiValid ->
  updateFirmware tool "spi" imageName (MString m) diagImagePath = Ok body ->
  readResetFlag toNumber body = Ok (JS.Str "Issue warm reset NOW!") ->
  updateSpi toNumber imageName imageMode diagImagePath self
    = Run (UpdateFirmware "spi" imageName (MString m) diagImagePath
             :: (if skipReset self then [] else [WarmReset false]))
          self
          (if skipReset self then Ok tt else warmReset tool false).
Proof.
  intros Ht Hm Hv Hu Hr. unfold updateSpi, then_. rewrite Hm. unfold spiValid in Hv.
  rewrite (assert_isIn_member m _ self Hv). simpl.
  rewrite (call_with_tool _ _ _ self tool Ht). simpl. rewrite Hu, Hr. simpl.
  destruct (skipReset self); simpl; [reflexivity|].
  rewrite (call_with_tool _ _ _ self tool Ht). reflexivity.
Qed.

(** The SPI response does not carry the reset prompt: one error, whatever
    went wrong, and nothing after it. *)
Lemma updateSpi_rejected (self : job) (tool : agent) (imageName : string)
    (imageMode : mode) (diagImagePath m : string) (body : JS.value) :
  diagTool self = Some tool ->
  parseSpiMode self imageMode = MString m ->
  m ∈ spiValid ->
  updateFirmware tool "spi" imageName (MString m) diagImagePath = Ok body ->
  readResetFlag toNumber body <> Ok (JS.Str "Issue warm reset NOW!") ->
  updateSpi toNumber imageName imageMode diagImagePath self
    = Run [UpdateFirmware "spi" imageName (MString m) diagImagePath;
           LoggerError "Failed to get reset flags from diag"
                       (errorOf (readResetFlag toNumber body)) body (nodeId self)]
          self
          (Throw (Error "Failed to get reset flags from diag")).
Proof.
  intros Ht Hm Hv Hu Hr. unfold updateSpi, then_. rewrite Hm. unfold spiValid in Hv.
  rewrite (assert_isIn_member m _ self Hv). simpl.
  rewrite (call_with_tool _ _ _ self tool Ht). simpl. rewrite Hu.
  destruct (readResetFlag toNumber body) as [flag|e] eqn:E; simpl; [|reflexivity].
  destruct flag as [| |b|n|s|l|kvs]; simpl; try reflexivity.
  case_bool_decide as Hs; simpl; [|reflexivity].
  subst s. congruence.
Qed.

(** Reading a field that is not [length]. *)
Lemma get_field (v : JS.value) (name : string) :
  bool_decide (name = "length") = false ->
  JS.get v name = match v with
                  | JS.Undefined => Throw (JS.cannotRead name "undefined")
                  | JS.Null => Throw (JS.cannotRead name "null")
                  | JS.Obj fields => Ok (JS.ownProperty fields name)
                  | _ => Ok JS.Undefined
                  end.
Proof. intros H. destruct v; simpl; rewrite ?H; reflexivity. Qed.

(** The nested field of an entry is the prompt exactly when the entry is
    an object whose [atomic_test_data] is an object that has it. *)
Lemma nested_field_prompt (entry : JS.value) :
  match JS.get entry "atomic_test_data" with
  | Ok data => JS.get data "secure_firmware_update"
  | Throw e => Throw e
  end = Ok (JS.Str "Issue warm reset NOW!")
  <-> match entry with
      | JS.Obj fields =>
          match JS.ownProperty fields "atomic_test_data" with
          | JS.Obj data =>
              JS.isEqual (JS.ownProperty data "secure_firmware_update")
                         "Issue warm reset NOW!"
          | _ => false
          end
      | _ => false
      end = true.
Proof.
  rewrite (get_field entry "atomic_test_data" eq_refl).
  destruct entry as [| |b|n|s|l|fields];
    try rewrite (get_field _ "secure_firmware_update" eq_refl);
    try (split; discriminate).
  destruct (JS.ownProperty fields "atomic_test_data") as [| |b|n|s|l|data];
    try (split; discriminate).
  unfold JS.isEqual.
  destruct (JS.ownProperty data "secure_firmware_update") as [| |b|n|s|l|o];
    try (split; discriminate).
  split.
  - intros [= ->]. apply bool_decide_eq_true_2. reflexivity.
  - intros H. apply bool_decide_eq_true_1 in H. subst s. reflexivity.
Qed.

(** On a body whose [result] is not a plain object, the expression the
    job evaluates finds the prompt exactly when the second-to-last entry
    of the sequence has it. *)
Lemma readResetFlag_sequence (body : JS.value) :
  (forall fields, JS.get body "result" <> Ok (JS.Obj fields)) ->
  readResetFlag toNumber body = Ok (JS.Str "Issue warm reset NOW!")
  <-> secondToLastHasPrompt body = true.
Proof.
  intros Hshape. unfold readResetFlag, secondToLastHasPrompt.
  rewrite (get_field body "result" eq_refl) in *.
  destruct body as [| |b|n|s|l|fields]; try (split; discriminate).
  destruct (JS.ownProperty fields "result") as [| |b|n|s|entries|kvs] eqn:Er;
    cbn [JS.get];
    try change (bool_decide ("length" = "length")) with true; cbn iota;
    unfold JS.minus2; cbn [JS.getIndex];
    try (split; discriminate).
  - (* a string: its characters have no fields *)
    rewrite (get_field _ "atomic_test_data" eq_refl).
    destruct (0 <=? Z.of_nat (String.length s) - 2); [|split; discriminate].
    destruct (String.get _ s); split; discriminate.
  - (* a sequence *)
    destruct (0 <=? Z.of_nat (length entries) - 2) eqn:Eidx.
    + replace (Z.to_nat (Z.of_nat (length entries) - 2)) with (length entries - 2)%nat by lia.
      replace (2 <=? length entries)%nat with true
        by (symmetry; apply Nat.leb_le; apply Z.leb_le in Eidx; lia).
      rewrite andb_true_l.
      destruct (entries !! (length entries - 2)%nat) as [entry|];
        [|split; discriminate].
      apply nested_field_prompt.
    + replace (2 <=? length entries)%nat with false
        by (symmetry; apply Nat.leb_gt; apply Z.leb_gt in Eidx; lia).
      split; discriminate.
  - exfalso. exact (Hshape kvs eq_refl).
Qed.

(** On a body whose [result] is a plain object, the expression reads the
    property named by [length - 2]. *)
Lemma readResetFlag_keyed (fields properties : list (string * JS.value)) :
  JS.ownProperty fields "result" = JS.Obj properties ->
  secondToLastHasPrompt (JS.Obj fields) = false /\
  (readResetFlag toNumber (JS.Obj fields) = Ok (JS.Str "Issue warm reset NOW!")
   <-> keyedResultHasPrompt toNumber (JS.Obj fields) = true).
Proof.
  intros Er. unfold secondToLastHasPrompt, keyedResultHasPrompt, readResetFlag.
  rewrite (get_field (JS.Obj fields) "result" eq_refl), Er.
  split; [reflexivity|].
  cbn [JS.get].
  destruct (JS.minus2 toNumber (JS.ownProperty properties "length")) as [index|e];
    [|split; discriminate].
  cbn [JS.getIndex]. apply nested_field_prompt.
Qed.

(** The expression finds the prompt exactly on the bodies of the
    acceptance rule and on the plain objects that carry it under the key
    the expression computes. *)
Lemma readResetFlag_prompt (body : JS.value) :
  readResetFlag toNumber body = Ok (JS.Str "Issue warm reset NOW!")
  <-> secondToLastHasPrompt body || keyedResultHasPrompt toNumber body = true.
Proof.
  destruct body as [| |b|n|s|l|fields];
    try (rewrite readResetFlag_sequence by (intros f; discriminate); reflexivity).
  destruct (JS.ownProperty fields "result") as [| |b|n|s|l|properties] eqn:Er;
    try (rewrite readResetFlag_sequence
           by (intros f; rewrite (get_field _ "result" eq_refl), Er; discriminate);
         unfold keyedResultHasPrompt; rewrite Er, orb_false_r; reflexivity).
  destruct (readResetFlag_keyed fields properties Er) as [-> H]. exact H.
Qed.

End UpdateProcedures.

(** ** The run chain *)

Lemma noDone_app (l1 l2 : list event) : noDone l1 -> noDone l2 -> noDone (l1 ++ l2).
Proof. unfold noDone. rewrite forallb_app. intros -> ->. reflexivity. Qed.

Lemma sequential_single (stage : M unit) (self : job) :
  sequential [stage] self (trace (stage self)) (this (stage self))
             (errorOf (outcome (stage self))).
Proof.
  destruct (outcome (stage self)) as [[]|e] eqn:E; simpl.
  - rewrite <- (app_nil_r (trace (stage self))).
    apply sequential_next; [exact E | apply sequential_nil].
  - apply sequential_fail. exact E.
Qed.

Lemma sequential_snoc (stages : list (M unit)) (stage : M unit) (self self' : job)
    (evs : list event) (err : option error) :
  sequential stages self evs self' err ->
  match err with
  | None =>
      sequential (stages ++ [stage]) self (evs ++ trace (stage self'))
                 (this (stage self')) (errorOf (outcome (stage self')))
  | Some e => sequential (stages ++ [stage]) self evs self' (Some e)
  end.
Proof.
  induction 1 as [s | st sts s evs s' err Hok Hseq IH | st sts s e Hfail]; simpl.
  - apply sequential_single.
  - destruct err as [e|]; simpl in *.
    + apply sequential_next; assumption.
    + rewrite <- app_assoc. apply sequential_next; assumption.
  - apply sequential_fail. exact Hfail.
Qed.

(** [p.then(stage)] runs [stage] after the stages of [p], if none failed. *)
Lemma then_sequential (stages : list (M unit)) (p stage : M unit) (self : job) :
  sequential stages self (trace (p self)) (this (p self)) (errorOf (outcome (p self))) ->
  let q := (p >>= (fun _ => stage)) self in
  sequential (stages ++ [stage]) self (trace q) (this q) (errorOf (outcome q)).
Proof.
  intros H. apply (sequential_snoc _ stage) in H. unfold then_. simpl.
  destruct (outcome (p self)) as [[]|e]; simpl in *; exact H.
Qed.

Lemma retryLoop_this (tool : agent) (delay : Z) (retries attempt : nat) (self : job) :
  this (retryLoop tool delay attempt retries self) = self.
Proof.
  revert attempt. induction retries as [|n IH]; intros attempt; simpl; [reflexivity|].
  unfold then_. simpl. destruct (syncDiscovery tool attempt); simpl; [reflexivity|].
  destruct n; simpl; [reflexivity|]. apply (IH (S attempt)).
Qed.

Lemma retryLoop_noDone (tool : agent) (delay : Z) (retries attempt : nat) (self : job) :
  noDone (trace (retryLoop tool delay attempt retries self)).
Proof.
  revert attempt. induction retries as [|n IH]; intros attempt; simpl; [reflexivity|].
  unfold then_. simpl. destruct (syncDiscovery tool attempt); simpl; [reflexivity|].
  destruct n; simpl; [reflexivity|]. apply (IH (S attempt)).
Qed.

(** Discovery fails only for want of an answer to every attempt, and then
    the trace is the full series of attempts. *)
Lemma retryLoop_exhausted (tool : agent) (delay : Z) (retries attempt : nat) (self : job) :
  (forall k, (attempt <= k < attempt + retries)%nat -> syncDiscovery tool k <> Ok tt) ->
  retryLoop tool delay attempt retries self
    = Run (failedAttempts delay attempt retries) self (Throw DiscoveryTimeout).
Proof.
  revert attempt. induction retries as [|n IH]; intros attempt H; [reflexivity|].
  cbn [retryLoop]. unfold then_. simpl.
  destruct (syncDiscovery tool attempt) as [[]|e] eqn:E.
  - exfalso. apply (H attempt); [lia | exact E].
  - destruct n as [|n']; [reflexivity|].
    rewrite (IH (S attempt)) by (intros k Hk; apply H; lia). reflexivity.
Qed.

Lemma retryLoop_failure (tool : agent) (delay : Z) (retries attempt : nat) (self : job)
    (e : error) :
  outcome (retryLoop tool delay attempt retries self) = Throw e ->
  e = DiscoveryTimeout /\
  forall k, (attempt <= k < attempt + retries)%nat -> syncDiscovery tool k <> Ok tt.
Proof.
  revert attempt. induction retries as [|n IH]; intros attempt; cbn [retryLoop].
  - simpl. intros [= <-]. split; [reflexivity | intros k Hk; lia].
  - unfold then_. simpl.
    destruct (syncDiscovery tool attempt) as [[]|e'] eqn:E; simpl; [discriminate|].
    destruct n as [|n'].
    + simpl. intros [= <-]. split; [reflexivity|].
      intros k Hk. replace k with attempt by lia. rewrite E. discriminate.
    + intros H. apply (IH (S attempt)) in H as [-> H]. split; [reflexivity|].
      intros k Hk. destruct (decide (k = attempt)) as [->|Hne].
      * rewrite E. discriminate.
      * apply H. lia.
Qed.

Lemma retryLoop_success (tool : agent) (delay : Z) (retries attempt : nat) (self : job) :
  (exists k, (attempt <= k < attempt + retries)%nat /\ syncDiscovery tool k = Ok tt) ->
  outcome (retryLoop tool delay attempt retries self) = Ok tt.
Proof.
  intros (k & Hk & Ek).
  destruct (outcome (retryLoop tool delay attempt retries self)) as [[]|e] eqn:E;
    [reflexivity|].
  apply retryLoop_failure in E as [_ H]. exfalso. exact (H k Hk Ek).
Qed.

Section Run.

Variable DiagTool : string -> string -> agent.
Variable isIP : string -> Z -> bool.
Variable capitalize : string -> string.
Variable toNumber : JS.value -> result (option Z).

Local Abbreviation discovering' := (discovering DiagTool isIP).
Local Abbreviation dispatching' := (dispatching capitalize toNumber).
Local Abbreviation uploaded' := (uploaded DiagTool isIP).
Local Abbreviation run' := (_run DiagTool isIP capitalize toNumber).
Local Abbreviation dispatched' := (dispatched DiagTool isIP capitalize toNumber).
Local Abbreviation toolOf' := (toolOf DiagTool).

Lemma discovering_malformed (self0 self : job) :
  isIP (Context.nodeIp (context self)) 4 = false ->
  discovering' self0 self = Run [] self (Throw (AssertionError "isIP")).
Proof.
  intros H. unfold discovering, getNodeIp, assert_isIP, then_. rewrite H. reflexivity.
Qed.

Lemma discovering_wellformed (self0 self : job) :
  isIP (Context.nodeIp (context self)) 4 = true ->
  let loop := retryLoop (toolOf' self) (retryDuration self0) 0 (Z.to_nat (retryCount self0))
                        (set_diagTool self (toolOf' self)) in
  discovering' self0 self
    = Run (NewDiagTool (Context.nodeIp (context self)) (nodeId self)
             :: RetrySyncDiscovery (retryDuration self0) (retryCount self0) :: trace loop)
          (set_diagTool self (toolOf' self))
          (outcome loop).
Proof.
  intros H. unfold discovering, getNodeIp, assert_isIP, then_. rewrite H. simpl.
  unfold retrySyncDiscovery, then_. simpl.
  fold (toolOf' self). rewrite retryLoop_this.
  destruct (outcome (retryLoop _ _ _ _ _)); reflexivity.
Qed.

Lemma discovering_noDone (self0 self : job) : noDone (trace (discovering' self0 self)).
Proof.
  destruct (isIP (Context.nodeIp (context self)) 4) eqn:H.
  - rewrite (discovering_wellformed _ _ H). simpl. apply retryLoop_noDone.
  - rewrite (discovering_malformed _ _ H). reflexivity.
Qed.

Lemma call_noDone {A} (name : string) (ev : event) (f : agent -> result A) (self : job) :
  isDone ev = false -> noDone (trace (call name ev f self)).
Proof.
  intros H. unfold call. destruct (diagTool self); [|reflexivity].
  unfold noDone. simpl. rewrite H. reflexivity.
Qed.

Lemma call_this {A} (name : string) (ev : event) (f : agent -> result A) (self : job) :
  this (call name ev f self) = self.
Proof. unfold call. destruct (diagTool self); reflexivity. Qed.

Lemma assert_isIn_run (v : mval) (values : list string) (self : job) :
  assert_isIn v values self = Run [] self (Ok tt) \/
  assert_isIn v values self = Run [] self (Throw (AssertionError "isIn")).
Proof.
  unfold assert_isIn. destruct v; try (right; reflexivity);
    destruct (bool_decide _); [left|right|left|right]; reflexivity.
Qed.

Lemma updateBmc_noDone (imageName : string) (imageMode : mode) (path : string)
    (self : job) :
  noDone (trace (updateBmc imageName imageMode path self)).
Proof.
  unfold updateBmc, then_.
  destruct (assert_isIn_run (parseBmcMode self imageMode) bmcValid self) as [E|E];
    unfold bmcValid in E; rewrite E; simpl; [|reflexivity].
  unfold call. destruct (diagTool self) as [tool|] eqn:Ht; simpl; [|reflexivity].
  destruct (updateFirmware tool _ _ _ _); simpl; [|reflexivity].
  destruct (skipReset self); simpl; [reflexivity|].
  rewrite Ht. reflexivity.
Qed.

Lemma updateSpi_noDone (imageName : string) (imageMode : mode) (path : string)
    (self : job) :
  noDone (trace (updateSpi toNumber imageName imageMode path self)).
Proof.
  unfold updateSpi, then_.
  destruct (assert_isIn_run (parseSpiMode self imageMode) spiValid self) as [E|E];
    unfold spiValid in E; rewrite E; simpl; [|reflexivity].
  unfold call. destruct (diagTool self) as [tool|] eqn:Ht; simpl; [|reflexivity].
  destruct (updateFirmware tool _ _ _ _) as [body|]; simpl; [|reflexivity].
  destruct (readResetFlag toNumber body) as [flag|]; simpl; [|reflexivity].
  destruct (negb (JS.isEqual flag _) || _); simpl; [reflexivity|].
  destruct (skipReset self); simpl; [reflexivity|].
  rewrite Ht. reflexivity.
Qed.

Lemma update_prefix_inj (a b : string) : "update" +:+ a = "update" +:+ b -> a = b.
Proof. intros H. vm_compute in H. congruence. Qed.

(** [self[method]] is a function only for the two update procedures. *)
Lemma member_update (suffix : string) :
  member toNumber ("update" +:+ suffix)
    = if bool_decide (suffix = "Bmc") then Some updateBmc
      else if bool_decide (suffix = "Spi") then Some (updateSpi toNumber)
      else None.
Proof.
  unfold member.
  repeat case_bool_decide; try reflexivity; exfalso;
    repeat match goal with
           | H : "update" +:+ _ = "updateBmc" |- _ =>
               change "updateBmc" with ("update" +:+ "Bmc") in H;
               apply update_prefix_inj in H
           | H : "update" +:+ _ = "updateSpi" |- _ =>
               change "updateSpi" with ("update" +:+ "Spi") in H;
               apply update_prefix_inj in H
           | H : "update" +:+ ?s <> "updateBmc", E : ?s = "Bmc" |- _ =>
               apply H; rewrite E; reflexivity
           | H : "update" +:+ ?s <> "updateSpi", E : ?s = "Spi" |- _ =>
               apply H; rewrite E; reflexivity
           end; congruence.
Qed.

Lemma dispatching_noDone (self0 self : job) : noDone (trace (dispatching' self0 self)).
Proof.
  unfold dispatching. rewrite member_update.
  repeat case_bool_decide; [apply updateBmc_noDone | apply updateSpi_noDone | reflexivity].
Qed.

Lemma done_after (p : M unit) (self : job) :
  catch_ (p >>= (fun _ => _done None)) (fun err => _done (Some err)) self
    = Run (trace (p self) ++ [Done (errorOf (outcome (p self)))]) (this (p self)) (Ok tt).
Proof.
  unfold catch_, then_, _done, emit.
  destruct (p self) as [t s [[]|e]]; reflexivity.
Qed.

(** [_run] signals the end once, after the chain, with the error of the
    chain if it has one. *)
Lemma run_dispatched (self : job) :
  run' self = Run (trace (dispatched' self) ++ [Done (errorOf (outcome (dispatched' self)))])
                  (this (dispatched' self)) (Ok tt).
Proof.
  unfold _run. rewrite done_after. reflexivity.
Qed.

Lemma dispatched_uploaded (self : job) :
  dispatched' self
    = match outcome (uploaded' self) with
      | Ok _ =>
          let d := dispatching' self (this (uploaded' self)) in
          Run (trace (uploaded' self) ++ trace d) (this d) (outcome d)
      | Throw e => Run (trace (uploaded' self)) (this (uploaded' self)) (Throw e)
      end.
Proof. unfold dispatched. unfold then_ at 1. fold (uploaded' self). reflexivity. Qed.

Lemma dispatched_sequential (self : job) :
  sequential [discovering' self; enumerating; uploading self; dispatching' self] self
             (trace (dispatched' self)) (this (dispatched' self))
             (errorOf (outcome (dispatched' self))).
Proof.
  unfold dispatched, Promise_try.
  apply (then_sequential [discovering' self; enumerating; uploading self]).
  apply (then_sequential [discovering' self; enumerating]).
  apply (then_sequential [discovering' self]).
  apply sequential_single.
Qed.

Lemma dispatched_noDone (self : job) : noDone (trace (dispatched' self)).
Proof.
  unfold dispatched, Promise_try, then_.
  pose proof (discovering_noDone self self) as H1.
  destruct (discovering' self self) as [t1 s1 [[]|e1]]; simpl in *; [|exact H1].
  pose proof (call_noDone "getAllDevices" GetAllDevices getAllDevices s1 eq_refl) as H2.
  fold enumerating in H2.
  destruct (enumerating s1) as [t2 s2 [[]|e2]]; simpl in *;
    [|apply noDone_app; assumption].
  pose proof (call_noDone "uploadImageFile"
                (UploadImageFile (imageUrl self) (imageName self) "/api/upload/file")
                (fun tool => uploadImageFile tool (imageUrl self) (imageName self)
                                             "/api/upload/file") s2 eq_refl) as H3.
  fold (uploading self) in H3.
  destruct (uploading self s2) as [t3 s3 [[]|e3]]; simpl in *;
    [|repeat apply noDone_app; assumption].
  pose proof (dispatching_noDone self s3) as H4.
  destruct (dispatching' self s3) as [t4 s4 [[]|e4]]; simpl in *;
    repeat apply noDone_app; assumption.
Qed.

Local Abbreviation updating' := (updating capitalize toNumber).
Local Abbreviation resetting' := (resetting capitalize).

Lemma then_ext {A B} (p : M A) (f g : A -> M B) (self : job) :
  (forall a s, f a s = g a s) -> (p >>= f) self = (p >>= g) self.
Proof.
  intros H. unfold then_. destruct (outcome (p self)); [rewrite H|]; reflexivity.
Qed.

Lemma then_assoc (p q r : M unit) (self : job) :
  (p >>= (fun _ => q >>= (fun _ => r))) self
    = (p >>= (fun _ => q) >>= (fun _ => r)) self.
Proof.
  unfold then_. destruct (outcome (p self)); cbn [outcome this trace]; [|reflexivity].
  destruct (outcome (q (this (p self)))); cbn [outcome this trace]; [|reflexivity].
  rewrite app_assoc. reflexivity.
Qed.

(** The procedure the job dispatches to is its update followed by its
    reset. *)
Lemma dispatching_stages (self0 self : job) :
  dispatching' self0 self = (updating' self0 >>= (fun _ => resetting' self0)) self.
Proof.
  unfold dispatching, updating, resetting, member.
  destruct (bool_decide ("update" +:+ capitalize (firmwareType self0) = "updateBmc")) eqn:Eb.
  - unfold updateBmc, then_.
    destruct (assert_isIn_run (parseBmcMode self (imageMode self0)) bmcValid self) as [E|E];
      unfold bmcValid in E; rewrite E; cbn [outcome this trace]; [|reflexivity].
    unfold call. destruct (diagTool self) as [tool|] eqn:Ht; cbn [outcome this trace];
      [|reflexivity].
    destruct (updateFirmware tool _ _ _ _) as [body|e]; cbn [outcome this trace resolve];
      [|reflexivity].
    destruct (skipReset self); cbn [negb outcome this trace resolve app]; [reflexivity|].
    rewrite Ht. reflexivity.
  - destruct (bool_decide ("update" +:+ capitalize (firmwareType self0) = "updateSpi")) eqn:Es;
      [|reflexivity].
    unfold updateSpi, then_.
    destruct (assert_isIn_run (parseSpiMode self (imageMode self0)) spiValid self) as [E|E];
      unfold spiValid in E; rewrite E; cbn [outcome this trace]; [|reflexivity].
    unfold call. destruct (diagTool self) as [tool|] eqn:Ht; cbn [outcome this trace];
      [|reflexivity].
    destruct (updateFirmware tool _ _ _ _) as [body|e]; cbn [outcome this trace];
      [|reflexivity].
    destruct (readResetFlag toNumber body) as [flag|e];
      [destruct (negb (JS.isEqual flag _) || _) eqn:Ef|];
      cbn [emit throw resolve outcome this trace app orb negb]; reflexivity.
Qed.

(** The chain of [_run] before its last two callbacks, stage by stage. *)
Lemma dispatched_stages (self : job) :
  dispatched' self
    = (Promise_try (fun _ => discovering' self)
       >>= (fun _ => enumerating)
       >>= (fun _ => uploading self)
       >>= (fun _ => updating' self)
       >>= (fun _ => resetting' self)) self.
Proof.
  unfold dispatched.
  rewrite (then_ext _ (fun _ => dispatching' self)
             (fun _ => updating' self >>= (fun _ => resetting' self)))
    by (intros a s; apply dispatching_stages).
  apply then_assoc.
Qed.

Lemma stages_sequential (self : job) :
  sequential [discovering' self; enumerating; uploading self; updating' self;
              resetting' self] self
             (trace (dispatched' self)) (this (dispatched' self))
             (errorOf (outcome (dispatched' self))).
Proof.
  rewrite dispatched_stages. unfold Promise_try.
  apply (then_sequential [discovering' self; enumerating; uploading self; updating' self]).
  apply (then_sequential [discovering' self; enumerating; uploading self]).
  apply (then_sequential [discovering' self; enumerating]).
  apply (then_sequential [discovering' self]).
  apply sequential_single.
Qed.

Lemma retryLoop_stage (tool : agent) (delay : Z) (retries attempt : nat) (self : job)
    (ev : event) :
  ev ∈ trace (retryLoop tool delay attempt retries self) -> stageOf ev = Some 0%nat.
Proof.
  revert attempt. induction retries as [|n IH]; intros attempt; cbn [retryLoop].
  - intros H. apply elem_of_nil in H. destruct H.
  - unfold then_. cbn [emit outcome this trace].
    destruct (syncDiscovery tool attempt); cbn [resolve throw outcome this trace app].
    + intros H. apply list_elem_of_singleton in H. subst ev. reflexivity.
    + destruct n as [|n'].
      * cbn [throw outcome this trace app]. intros H.
        apply list_elem_of_singleton in H. subst ev. reflexivity.
      * cbn [outcome this trace app]. intros H.
        apply elem_of_cons in H as [->|H]; [reflexivity|].
        apply elem_of_cons in H as [->|H]; [reflexivity|].
        exact (IH (S attempt) H).
Qed.

Lemma call_stage {A} (name : string) (ev ev' : event) (f : agent -> result A) (self : job) :
  ev' ∈ trace (call name ev f self) -> ev' = ev.
Proof.
  unfold call. destruct (diagTool self); cbn [trace]; intros H.
  - apply list_elem_of_singleton in H. exact H.
  - apply elem_of_nil in H. destruct H.
Qed.

(** Every stage leaves only events of its own. *)
Lemma stage_events (self : job) (i : nat) (stage : M unit) (s : job) (ev : event) :
  [discovering' self; enumerating; uploading self; updating' self; resetting' self] !! i
    = Some stage ->
  ev ∈ trace (stage s) -> stageOf ev = Some i.
Proof.
  intros Hi Hev.
  destruct i as [|[|[|[|[|i]]]]]; cbn in Hi; try discriminate Hi;
    injection Hi as <-.
  - destruct (isIP (Context.nodeIp (context s)) 4) eqn:Hip.
    + rewrite (discovering_wellformed _ _ Hip) in Hev. cbn [trace] in Hev.
      apply elem_of_cons in Hev as [->|Hev]; [reflexivity|].
      apply elem_of_cons in Hev as [->|Hev]; [reflexivity|].
      exact (retryLoop_stage _ _ _ _ _ _ Hev).
    + rewrite (discovering_malformed _ _ Hip) in Hev.
      apply elem_of_nil in Hev. destruct Hev.
  - apply call_stage in Hev. subst ev. reflexivity.
  - apply call_stage in Hev. subst ev. reflexivity.
  - revert Hev. unfold updating.
    destruct (bool_decide _).
    + unfold then_ at 1.
      destruct (assert_isIn_run (parseBmcMode s (imageMode self)) bmcValid s) as [E|E];
        unfold bmcValid in E; rewrite E; cbn [outcome this trace app];
        [|intros H; apply elem_of_nil in H; destruct H].
      unfold then_. unfold call.
      destruct (diagTool s) as [tool|]; cbn [outcome this trace];
        [destruct (updateFirmware tool _ _ _ _)|]; cbn [resolve outcome this trace app];
        rewrite ?elem_of_cons, ?elem_of_nil; intros H; decompose [or] H;
        subst; try contradiction; reflexivity.
    + destruct (bool_decide _);
        [|intros H; apply elem_of_nil in H; destruct H].
      unfold then_ at 1.
      destruct (assert_isIn_run (parseSpiMode s (imageMode self)) spiValid s) as [E|E];
        unfold spiValid in E; rewrite E; cbn [outcome this trace app];
        [|intros H; apply elem_of_nil in H; destruct H].
      unfold then_. unfold call.
      destruct (diagTool s) as [tool|]; cbn [outcome this trace];
        [destruct (updateFirmware tool _ _ _ _) as [body|]|]; cbn [outcome this trace app];
        [destruct (readResetFlag toNumber body) as [flag|];
         [destruct (negb (JS.isEqual flag _) || _)|]| |];
        cbn [JS.isEqual negb orb emit throw resolve outcome this trace app];
        rewrite ?elem_of_cons, ?elem_of_nil; intros H; decompose [or] H;
        subst; try contradiction; reflexivity.
  - revert Hev. unfold resetting.
    destruct (negb (skipReset s));
      [|intros H; apply elem_of_nil in H; destruct H].
    destruct (bool_decide _); intros H; apply call_stage in H; subst ev; reflexivity.
Qed.

(** C2: every run of the job signals its end exactly once, as the last
    thing it does. What comes before is the five stages in order,
    discovery, enumeration, upload, update and reset, each leaving only
    events of its own: the end signal carries no error when all five
    succeeded, and otherwise the error of the first stage that failed, the
    trace ending with what that stage did, so that none of the later stages
    has run. The end signal [_done] itself is taken as the single terminal
    signal of the specification, which does not throw. *)
Theorem run_completes_once (self : job) :
  let stages := [discovering' self; enumerating; uploading self; updating' self;
                 resetting' self] in
  (exists evs self' err,
     run' self = Run (evs ++ [Done err]) self' (Ok tt) /\
     noDone evs /\
     length (List.filter isDone (trace (run' self))) = 1%nat /\
     sequential stages self evs self' err) /\
  (forall i stage s ev,
     stages !! i = Some stage -> ev ∈ trace (stage s) -> stageOf ev = Some i).
Proof.
  cbv zeta. split.
  - exists (trace (dispatched' self)), (this (dispatched' self)),
           (errorOf (outcome (dispatched' self))).
    pose proof (dispatched_noDone self) as Hn.
    split; [apply run_dispatched|]. split; [exact Hn|]. split.
    + rewrite run_dispatched. simpl. rewrite List.filter_app. simpl.
      rewrite length_app. simpl.
      assert (E : List.filter isDone (trace (dispatched' self)) = []).
      { revert Hn. unfold noDone. generalize (trace (dispatched' self)).
        induction l as [|ev l IH]; simpl; [reflexivity|].
        destruct (isDone ev); simpl; [discriminate|]. exact IH. }
      rewrite E. reflexivity.
    + apply stages_sequential.
  - apply stage_events.
Qed.

Lemma uploaded_this (self : job) :
  outcome (uploaded' self) = Ok tt ->
  this (uploaded' self) = set_diagTool self (toolOf' self).
Proof.
  unfold uploaded, Promise_try, then_.
  destruct (isIP (Context.nodeIp (context self)) 4) eqn:H.
  - rewrite (discovering_wellformed _ _ H). cbn [outcome this trace].
    destruct (outcome (retryLoop _ _ _ _ _)) as [[]|e]; cbn [outcome this trace];
      [|discriminate].
    unfold enumerating. rewrite call_this.
    destruct (outcome (call _ _ _ _)) as [[]|e]; cbn [outcome this trace]; [|discriminate].
    unfold uploading. rewrite call_this. reflexivity.
  - rewrite (discovering_malformed _ _ H). simpl. discriminate.
Qed.

(** Once the image is uploaded, the run is the update procedure and the
    end signal. *)
Lemma run_after_upload (self : job) :
  outcome (uploaded' self) = Ok tt ->
  let d := dispatching' self (set_diagTool self (toolOf' self)) in
  run' self = Run (trace (uploaded' self) ++ trace d ++ [Done (errorOf (outcome d))])
                  (this d) (Ok tt).
Proof.
  intros H. rewrite run_dispatched, dispatched_uploaded, H.
  rewrite (uploaded_this self H). cbn [trace this outcome].
  rewrite <- app_assoc. reflexivity.
Qed.

Lemma dispatching_bmc (self0 self : job) :
  capitalize (firmwareType self0) = "Bmc" ->
  dispatching' self0 self = updateBmc (imageName self0) (imageMode self0) (diagImagePath self0) self.
Proof. intros H. unfold dispatching. rewrite member_update, H. reflexivity. Qed.

Lemma dispatching_spi (self0 self : job) :
  capitalize (firmwareType self0) = "Spi" ->
  dispatching' self0 self
    = updateSpi toNumber (imageName self0) (imageMode self0) (diagImagePath self0) self.
Proof. intros H. unfold dispatching. rewrite member_update, H. reflexivity. Qed.

Lemma dispatching_unknown (self0 self : job) :
  capitalize (firmwareType self0) <> "Bmc" ->
  capitalize (firmwareType self0) <> "Spi" ->
  dispatching' self0 self
    = Run [] self (Throw (TypeError "self[method] is not a function")).
Proof.
  intros H1 H2. unfold dispatching. rewrite member_update.
  rewrite !bool_decide_eq_false_2 by assumption. reflexivity.
Qed.

Lemma retryLoop_beforeDispatch (tool : agent) (delay : Z) (retries attempt : nat)
    (self : job) :
  forallb beforeDispatch (trace (retryLoop tool delay attempt retries self)) = true.
Proof.
  revert attempt. induction retries as [|n IH]; intros attempt; simpl; [reflexivity|].
  unfold then_. simpl. destruct (syncDiscovery tool attempt); simpl; [reflexivity|].
  destruct n; simpl; [reflexivity|]. apply (IH (S attempt)).
Qed.

(** Up to the upload nothing is sent but discovery, enumeration and
    upload. *)
Lemma uploaded_beforeDispatch (self : job) :
  forallb beforeDispatch (trace (uploaded' self)) = true.
Proof.
  unfold uploaded, Promise_try, then_.
  destruct (isIP (Context.nodeIp (context self)) 4) eqn:H.
  - rewrite (discovering_wellformed _ _ H). cbn [outcome this trace].
    pose proof (retryLoop_beforeDispatch (toolOf' self) (retryDuration self) (Z.to_nat (retryCount self)) 0
                  (set_diagTool self (toolOf' self))) as Hl.
    destruct (outcome (retryLoop _ _ _ _ _)) as [[]|e]; cbn [outcome this trace];
      [|exact Hl].
    unfold enumerating, uploading, call. cbn [diagTool set_diagTool outcome this trace].
    destruct (getAllDevices (toolOf' self)) as [[]|e]; cbn [outcome this trace diagTool];
      rewrite ?forallb_app; cbn [forallb beforeDispatch app]; rewrite ?forallb_app;
      cbn [forallb beforeDispatch app]; rewrite Hl; reflexivity.
  - rewrite (discovering_malformed _ _ H). reflexivity.
Qed.

Lemma beforeDispatch_noReset (evs : list event) :
  forallb beforeDispatch evs = true -> forallb (fun ev => negb (isReset ev)) evs = true.
Proof.
  induction evs as [|ev evs IH]; simpl; [reflexivity|].
  intros H. apply andb_prop in H as [H1 H2]. rewrite (IH H2).
  destruct ev; try discriminate; reflexivity.
Qed.

End Run.

(** ** Properties of the job *)

Section Properties.

Variable DiagTool : string -> string -> agent.
Variable isIP : string -> Z -> bool.
Variable capitalize : string -> string.
Variable toNumber : JS.value -> result (option Z).

Local Abbreviation uploaded' := (uploaded DiagTool isIP).
Local Abbreviation run' := (_run DiagTool isIP capitalize toNumber).
Local Abbreviation toolOf' := (toolOf DiagTool).

(** C1: once the image is uploaded and the SPI update has resolved with
    [body], [updateSpi] accepts the update, and goes on to the reset,
    exactly when the expression [body.result[body.result.length-2]
    .atomic_test_data.secure_firmware_update] yields the prompt. That is
    the case on the bodies of the acceptance rule, where [body.result] is a
    sequence whose second-to-last entry has the nested field with the
    prompt, and, against the rule, on the bodies whose [result] is a plain
    object that holds such an entry under the key the expression computes.
    On every other body the procedure logs the body and the node and throws
    one and the same error, the job ends with it, and no reset is
    attempted. *)
Theorem spi_update_acceptance (self : job) (m : string) (body : JS.value) :
  outcome (uploaded' self) = Ok tt ->
  capitalize (firmwareType self) = "Spi" ->
  parseSpiMode self (imageMode self) = MString m ->
  m ∈ spiValid ->
  updateFirmware (toolOf' self) "spi" (imageName self) (MString m) (diagImagePath self)
    = Ok body ->
  let accepted := secondToLastHasPrompt body || keyedResultHasPrompt toNumber body in
  let ready := set_diagTool self (toolOf' self) in
  let sent := UpdateFirmware "spi" (imageName self) (MString m) (diagImagePath self) in
  let resets := if skipReset self then [] else [WarmReset false] in
  let reset := if skipReset self then Ok tt else warmReset (toolOf' self) false in
  let logged := LoggerError "Failed to get reset flags from diag"
                            (errorOf (readResetFlag toNumber body)) body (nodeId self) in
  let failure := Error "Failed to get reset flags from diag" in
  (accepted = true ->
     updateSpi toNumber (imageName self) (imageMode self) (diagImagePath self) ready
       = Run (sent :: resets) ready reset /\
     run' self = Run (trace (uploaded' self) ++ (sent :: resets) ++ [Done (errorOf reset)])
                     ready (Ok tt)) /\
  (accepted = false ->
     updateSpi toNumber (imageName self) (imageMode self) (diagImagePath self) ready
       = Run [sent; logged] ready (Throw failure) /\
     run' self = Run (trace (uploaded' self) ++ [sent; logged] ++ [Done (Some failure)])
                     ready (Ok tt) /\
     forallb (fun ev => negb (isReset ev)) (trace (run' self)) = true) /\
  (secondToLastHasPrompt body = true -> keyedResultHasPrompt toNumber body = false) /\
  (accepted = true <-> readResetFlag toNumber body = Ok (JS.Str "Issue warm reset NOW!")).
Proof.
  intros Hup Hcap Hm Hv Hbody accepted ready sent resets reset logged failure.
  subst accepted ready sent resets reset logged failure.
  pose proof (run_after_upload DiagTool isIP capitalize toNumber self Hup) as Hrun.
  cbv zeta in Hrun. rewrite (dispatching_spi capitalize toNumber self _ Hcap) in Hrun.
  assert (Htool : diagTool (set_diagTool self (toolOf' self)) = Some (toolOf' self))
    by reflexivity.
  pose proof (readResetFlag_prompt toNumber body) as Hprompt.
  split; [|split; [|split]].
  - intros Ha. apply Hprompt in Ha.
    pose proof (updateSpi_accepted toNumber _ (toolOf' self) (imageName self)
                  (imageMode self) (diagImagePath self) m body Htool Hm Hv Hbody Ha) as E.
    split; [exact E|]. rewrite Hrun, E. reflexivity.
  - intros Ha.
    assert (Hp : readResetFlag toNumber body <> Ok (JS.Str "Issue warm reset NOW!")).
    { intros Hp. apply Hprompt in Hp. rewrite Hp in Ha. discriminate Ha. }
    pose proof (updateSpi_rejected toNumber _ (toolOf' self) (imageName self)
                  (imageMode self) (diagImagePath self) m body Htool Hm Hv Hbody Hp) as E.
    split; [exact E|]. split; [rewrite Hrun, E; reflexivity|].
    rewrite Hrun, E. cbn [trace outcome errorOf]. rewrite forallb_app.
    rewrite (beforeDispatch_noReset _ (uploaded_beforeDispatch DiagTool isIP self)).
    reflexivity.
  - unfold secondToLastHasPrompt, keyedResultHasPrompt.
    destruct body as [| |b|n|s|l|fields]; try discriminate.
    destruct (JS.ownProperty fields "result"); try discriminate. reflexivity.
  - symmetry. exact Hprompt.
Qed.

(** C6 (amended): a job whose [context.nodeIp] is not a well-formed IPv4
    address is constructed all the same; the address is checked when the
    run starts, the check fails before an agent client exists, and the job
    ends at once with the validation error: no discovery is attempted and
    nothing is retried. *)
Theorem malformed_ip_fails_at_run (options : Options.t) (ctx : Context.t)
    (taskId : string) :
  isIP (Context.nodeIp ctx) 4 = false ->
  exists self,
    DiagUpdateFirmware options ctx taskId = Ok self /\
    run' self = Run [Done (Some (AssertionError "isIP"))] self (Ok tt).
Proof.
  intros H. eexists. split; [reflexivity|].
  match goal with
  | |- _run _ _ _ _ ?s = _ =>
      assert (H' : isIP (Context.nodeIp (context s)) 4 = false) by exact H;
      generalize dependent s; intros self H'
  end.
  rewrite run_dispatched. unfold dispatched, Promise_try, then_.
  rewrite (discovering_malformed DiagTool isIP _ _ H'). reflexivity.
Qed.

(** C7: a job with a well-formed address asks for discovery with a delay
    of 5000 ms and 6 retries; under the retry rule of the specification
    discovery fails only when all of 6 attempts, 5000 ms apart, have
    failed, and the job then ends with the discovery timeout. *)
Theorem discovery_retry_parameters (options : Options.t) (ctx : Context.t)
    (taskId : string) (self : job) :
  DiagUpdateFirmware options ctx taskId = Ok self ->
  isIP (Context.nodeIp ctx) 4 = true ->
  let tool := DiagTool (Context.nodeIp ctx) (Context.target ctx) in
  let asked := [NewDiagTool (Context.nodeIp ctx) (Context.target ctx);
                RetrySyncDiscovery 5000 6] in
  let attempts := [SyncDiscovery 0; Delay 5000; SyncDiscovery 1; Delay 5000;
                   SyncDiscovery 2; Delay 5000; SyncDiscovery 3; Delay 5000;
                   SyncDiscovery 4; Delay 5000; SyncDiscovery 5] in
  (exists rest, trace (run' self) = (asked ++ rest)%list) /\
  (forall e, outcome (discovering DiagTool isIP self self) = Throw e ->
     e = DiscoveryTimeout /\
     (forall k, (k < 6)%nat -> syncDiscovery tool k <> Ok tt) /\
     trace (discovering DiagTool isIP self self) = (asked ++ attempts)%list) /\
  ((exists k, (k < 6)%nat /\ syncDiscovery tool k = Ok tt) ->
     outcome (discovering DiagTool isIP self self) = Ok tt) /\
  ((forall k, (k < 6)%nat -> syncDiscovery tool k <> Ok tt) ->
     run' self = Run (asked ++ attempts ++ [Done (Some DiscoveryTimeout)])
                     (set_diagTool self tool) (Ok tt)).
Proof.
  intros Hc Hip tool asked attempts.
  destruct (constructed_fields _ _ _ _ Hc)
    as (_ & _ & Hcount & Hdur & _ & _ & Hnode & Hctx & _).
  assert (Hip' : isIP (Context.nodeIp (context self)) 4 = true) by (rewrite Hctx; exact Hip).
  pose proof (discovering_wellformed DiagTool isIP self self Hip') as Hd.
  cbv zeta in Hd. unfold toolOf in Hd. rewrite Hcount, Hdur, Hnode, Hctx in Hd.
  fold tool in Hd. change (Z.to_nat 6) with 6%nat in Hd.
  assert (Hfail : (forall k, (k < 6)%nat -> syncDiscovery tool k <> Ok tt) ->
            discovering DiagTool isIP self self
              = Run (asked ++ attempts) (set_diagTool self tool) (Throw DiscoveryTimeout)).
  { intros Hall. rewrite Hd.
    rewrite (retryLoop_exhausted tool 5000 6 0 _) by (intros k Hk; apply Hall; lia).
    reflexivity. }
  split; [|split; [|split]].
  - rewrite run_dispatched. unfold dispatched, Promise_try.
    unfold then_ at 1 2 3. rewrite Hd. cbn [trace outcome this].
    repeat match goal with
           | |- context [match ?x with Ok _ => _ | Throw _ => _ end] => destruct x
           end; cbn [trace]; eexists; reflexivity.
  - intros e He. rewrite Hd in He. cbn [outcome] in He.
    apply retryLoop_failure in He as [-> Hall].
    assert (Hall' : forall k, (k < 6)%nat -> syncDiscovery tool k <> Ok tt)
      by (intros k Hk; apply Hall; lia).
    split; [reflexivity|]. split; [exact Hall'|].
    rewrite (Hfail Hall'). reflexivity.
  - intros (k & Hk & Ek). rewrite Hd. cbn [outcome].
    apply retryLoop_success. exists k. split; [lia | exact Ek].
  - intros Hall. rewrite run_dispatched. unfold dispatched, Promise_try, then_.
    rewrite (Hfail Hall). cbn [trace outcome this errorOf].
    rewrite <- app_assoc. reflexivity.
Qed.

(** C8: [skipReset] is false unless the option sets it. After a
    successful firmware update (for SPI: one whose response carries the
    prompt) the reset runs exactly when [skipReset] is false: the BMC path
    calls [bmcReset(false)], the SPI path [warmReset(false)], nothing else
    follows, and the job ends with the outcome of the reset, so that a
    failed reset fails the job; with [skipReset] set no reset is called and
    the job succeeds. *)
Theorem reset_unless_skipReset (options : Options.t) (ctx : Context.t)
    (taskId : string) (self : job) (m : string) (body : JS.value) :
  DiagUpdateFirmware options ctx taskId = Ok self ->
  outcome (uploaded' self) = Ok tt ->
  let ready := set_diagTool self (toolOf' self) in
  skipReset self = default false (Options.skipReset options) /\
  (capitalize (firmwareType self) = "Bmc" ->
   parseBmcMode self (imageMode self) = MString m ->
   m ∈ bmcValid ->
   updateFirmware (toolOf' self) "bmc" (imageName self) (MString m) (diagImagePath self)
     = Ok body ->
   let sent := UpdateFirmware "bmc" (imageName self) (MString m) (diagImagePath self) in
   let resets := if skipReset self then [] else [BmcReset false] in
   let reset := if skipReset self then Ok tt else bmcReset (toolOf' self) false in
   updateBmc (imageName self) (imageMode self) (diagImagePath self) ready
     = Run (sent :: resets) ready reset /\
   run' self = Run (trace (uploaded' self) ++ (sent :: resets) ++ [Done (errorOf reset)])
                   ready (Ok tt)) /\
  (capitalize (firmwareType self) = "Spi" ->
   parseSpiMode self (imageMode self) = MString m ->
   m ∈ spiValid ->
   updateFirmware (toolOf' self) "spi" (imageName self) (MString m) (diagImagePath self)
     = Ok body ->
   readResetFlag toNumber body = Ok (JS.Str "Issue warm reset NOW!") ->
   let sent := UpdateFirmware "spi" (imageName self) (MString m) (diagImagePath self) in
   let resets := if skipReset self then [] else [WarmReset false] in
   let reset := if skipReset self then Ok tt else warmReset (toolOf' self) false in
   updateSpi toNumber (imageName self) (imageMode self) (diagImagePath self) ready
     = Run (sent :: resets) ready reset /\
   run' self = Run (trace (uploaded' self) ++ (sent :: resets) ++ [Done (errorOf reset)])
                   ready (Ok tt)).
Proof.
  intros Hc Hup ready. subst ready.
  destruct (constructed_fields _ _ _ _ Hc) as (_ & _ & _ & _ & _ & _ & _ & _ & _ & Hskip).
  pose proof (run_after_upload DiagTool isIP capitalize toNumber self Hup) as Hrun.
  cbv zeta in Hrun.
  assert (Htool : diagTool (set_diagTool self (toolOf' self)) = Some (toolOf' self))
    by reflexivity.
  split; [exact Hskip|]. split.
  - intros Hcap Hm Hv Hbody sent resets reset. subst sent resets reset.
    rewrite (dispatching_bmc capitalize toNumber self _ Hcap) in Hrun.
    pose proof (updateBmc_after_update _ (toolOf' self) (imageName self)
                  (imageMode self) (diagImagePath self) m body Htool Hm Hv Hbody) as E.
    split; [exact E|]. rewrite Hrun, E. reflexivity.
  - intros Hcap Hm Hv Hbody Hp sent resets reset. subst sent resets reset.
    rewrite (dispatching_spi capitalize toNumber self _ Hcap) in Hrun.
    pose proof (updateSpi_accepted toNumber _ (toolOf' self) (imageName self)
                  (imageMode self) (diagImagePath self) m body Htool Hm Hv Hbody Hp) as E.
    split; [exact E|]. rewrite Hrun, E. reflexivity.
Qed.

(** C9 (amended): the constructor accepts any [firmwareType]. When its
    capitalised form is neither [Bmc] nor [Spi], the name
    ['update' + capitalize(firmwareType)] is no member of the job, and the
    run ends with one end signal that carries an error, no update having
    been sent to the agent; if discovery, enumeration and upload succeeded
    that error is the type error of the failed call. *)
Theorem unknown_firmwareType_fails_at_dispatch (options : Options.t) (ctx : Context.t)
    (taskId : string) :
  capitalize (Options.firmwareType options) <> "Bmc" ->
  capitalize (Options.firmwareType options) <> "Spi" ->
  exists self,
    DiagUpdateFirmware options ctx taskId = Ok self /\
    member toNumber ("update" +:+ capitalize (firmwareType self)) = None /\
    (exists self' e,
       run' self = Run (trace (uploaded' self) ++ [Done (Some e)]) self' (Ok tt) /\
       forallb beforeDispatch (trace (uploaded' self)) = true) /\
    (outcome (uploaded' self) = Ok tt ->
     run' self
       = Run (trace (uploaded' self)
                ++ [Done (Some (TypeError "self[method] is not a function"))])
             (set_diagTool self (toolOf' self)) (Ok tt)).
Proof.
  intros H1 H2. eexists. split; [reflexivity|].
  match goal with
  | |- context [firmwareType ?s] =>
      assert (H1' : capitalize (firmwareType s) <> "Bmc") by exact H1;
      assert (H2' : capitalize (firmwareType s) <> "Spi") by exact H2;
      generalize dependent s; intros self H1' H2'
  end.
  split; [|split].
  - rewrite member_update. rewrite !bool_decide_eq_false_2 by assumption. reflexivity.
  - rewrite run_dispatched, dispatched_uploaded.
    destruct (outcome (uploaded' self)) as [[]|e] eqn:E.
    + rewrite (dispatching_unknown capitalize toNumber self _ H1' H2').
      cbn [trace outcome this errorOf]. rewrite app_nil_r.
      eexists _, _. split; [reflexivity|]. apply uploaded_beforeDispatch.
    + cbn [trace outcome this errorOf].
      eexists _, _. split; [reflexivity|]. apply uploaded_beforeDispatch.
  - intros Hup.
    rewrite (run_after_upload DiagTool isIP capitalize toNumber self Hup).
    rewrite (dispatching_unknown capitalize toNumber self _ H1' H2'). reflexivity.
Qed.

(** C10: the BMC update procedure does not look at the response of the
    firmware update: with whatever body the update resolves, the procedure
    leaves the same trace and ends the same way, and once the mode is valid
    and the update has resolved it goes straight to the reset (or succeeds
    when [skipReset] is set). The SPI procedure does depend on the body. *)
Theorem bmc_update_ignores_body (self : job) (tool : agent) (imageName : string)
    (imageMode : mode) (diagImagePath : string) :
  (forall body body',
     let r := updateBmc imageName imageMode diagImagePath
                        (set_diagTool self (withBody tool body)) in
     let r' := updateBmc imageName imageMode diagImagePath
                         (set_diagTool self (withBody tool body')) in
     trace r = trace r' /\ outcome r = outcome r') /\
  (forall m body,
     parseBmcMode self imageMode = MString m ->
     m ∈ bmcValid ->
     updateBmc imageName imageMode diagImagePath (set_diagTool self (withBody tool body))
       = Run (UpdateFirmware "bmc" imageName (MString m) diagImagePath
                :: (if skipReset self then [] else [BmcReset false]))
             (set_diagTool self (withBody tool body))
             (if skipReset self then Ok tt else bmcReset tool false)) /\
  (exists body body',
     trace (updateSpi toNumber "bios.bin" (ModeInt 0) "/uploads"
                      (set_diagTool self (withBody tool body)))
     <> trace (updateSpi toNumber "bios.bin" (ModeInt 0) "/uploads"
                         (set_diagTool self (withBody tool body')))).
Proof.
  split; [|split].
  - intros body body'. cbv zeta. unfold updateBmc, then_.
    change (parseBmcMode (set_diagTool self (withBody tool body)) imageMode)
      with (parseBmcMode self imageMode).
    change (parseBmcMode (set_diagTool self (withBody tool body')) imageMode)
      with (parseBmcMode self imageMode).
    destruct (parseBmcMode self imageMode) as [|s|n|b]; cbn; try (split; reflexivity);
      destruct (bool_decide _); cbn; try (split; reflexivity);
      destruct (skipReset self); cbn; split; reflexivity.
  - intros m body Hm Hv.
    apply (updateBmc_after_update (set_diagTool self (withBody tool body))
             (withBody tool body) imageName imageMode diagImagePath m body);
      [reflexivity | exact Hm | exact Hv | reflexivity].
  - exists bodyAccepted, (JS.Obj []).
    rewrite (updateSpi_accepted toNumber (set_diagTool self (withBody tool bodyAccepted))
               (withBody tool bodyAccepted) "bios.bin" (ModeInt 0) "/uploads" "0"
               bodyAccepted eq_refl eq_refl ltac:(decide_closed) eq_refl eq_refl).
    rewrite (updateSpi_rejected toNumber (set_diagTool self (withBody tool (JS.Obj [])))
               (withBody tool (JS.Obj [])) "bios.bin" (ModeInt 0) "/uploads" "0"
               (JS.Obj []) eq_refl eq_refl ltac:(decide_closed) eq_refl
               ltac:(discriminate)).
    cbn [trace skipReset set_diagTool]. destruct (skipReset self); discriminate.
Qed.

End Properties.

(** ** The properties on concrete jobs *)

Lemma spi_update_acceptance_witness :
  secondToLastHasPrompt bodyNaN = false /\
  keyedResultHasPrompt JS.toNumberDecimal bodyNaN = true /\
  exists self,
    DiagUpdateFirmware (sampleOptions "spi" (ModeStr "serdes") None)
                       (sampleContext "10.1.1.3") "task" = Ok self /\
    trace (_run (fun _ _ => agentOk bodyNaN) isIPv4 capitalizeFirst JS.toNumberDecimal self)
      = [NewDiagTool "10.1.1.3" "node-1"; RetrySyncDiscovery 5000 6; SyncDiscovery 0;
         GetAllDevices;
         UploadImageFile "http://10.1.1.1/bios.bin" "bios.bin" "/api/upload/file";
         UpdateFirmware "spi" "bios.bin" (MString "3") "/uploads";
         WarmReset false; Done None].
Proof.
  split; [reflexivity|]. split; [reflexivity|].
  eexists. split; [reflexivity|].
  match goal with
  | |- trace (_run ?D ?I ?C ?T ?s) = _ =>
      destruct (spi_update_acceptance D I C T s "3" bodyNaN
                  eq_refl eq_refl eq_refl ltac:(decide_closed) eq_refl) as ((_ & E) & _);
        [reflexivity | rewrite E; reflexivity]
  end.
Defined.

(** The procedure on bodies of each kind: a sequence with the prompt in
    place is accepted; a plain object with the prompt under ["NaN"], which
    has no second-to-last entry, is accepted as well, and so is one with a
    [length] of its own; a plain object with the prompt under another key
    and a sequence that is too short are refused. *)
Example updateSpi_on_bodies :
  exists self,
    DiagUpdateFirmware (sampleOptions "spi" (ModeInt 3) (Some true))
                       (sampleContext "10.1.1.3") "task" = Ok self /\
    let outcomeOn body :=
      outcome (updateSpi JS.toNumberDecimal "bios.bin" (ModeInt 3) "/uploads"
                         (set_diagTool self (agentOk body))) in
    outcomeOn bodyAccepted = Ok tt /\
    outcomeOn bodyNaN = Ok tt /\
    outcomeOn (JS.Obj [("result", JS.Obj [("length", JS.Num 3); ("1", resetPrompt)])])
      = Ok tt /\
    outcomeOn (JS.Obj [("result", JS.Obj [("0", resetPrompt)])])
      = Throw (Error "Failed to get reset flags from diag") /\
    outcomeOn (JS.Obj [("result", JS.Arr [resetPrompt])])
      = Throw (Error "Failed to get reset flags from diag").
Proof. eexists. split; [reflexivity|]. repeat split; reflexivity. Qed.

Lemma malformed_ip_fails_at_run_witness :
  isIPv4 "10.1.1.300" 4 = false /\
  exists self,
    DiagUpdateFirmware (sampleOptions "bmc" (ModeStr "fullbmc") None)
                       (sampleContext "10.1.1.300") "task" = Ok self /\
    _run (fun _ _ => agentOk JS.Undefined) isIPv4 capitalizeFirst JS.toNumberDecimal self
      = Run [Done (Some (AssertionError "isIP"))] self (Ok tt).
Proof.
  split; [reflexivity|].
  apply (malformed_ip_fails_at_run (fun _ _ => agentOk JS.Undefined) isIPv4 capitalizeFirst
           JS.toNumberDecimal (sampleOptions "bmc" (ModeStr "fullbmc") None)
           (sampleContext "10.1.1.300") "task").
  reflexivity.
Defined.

(** C6, as stated, fails where it places the check: the constructor accepts
    a malformed address. *)
Lemma malformed_ip_passes_construction :
  isIPv4 "10.1.1.300" 4 = false /\
  ~ (exists e, DiagUpdateFirmware (sampleOptions "bmc" (ModeStr "fullbmc") None)
                                  (sampleContext "10.1.1.300") "task" = Throw e).
Proof.
  split; [reflexivity|]. intros [e H]. discriminate H.
Qed.

Lemma discovery_retry_parameters_witness :
  exists self,
    DiagUpdateFirmware (sampleOptions "bmc" (ModeStr "fullbmc") None)
                       (sampleContext "10.1.1.3") "task" = Ok self /\
    _run (fun _ _ => agentSilent) isIPv4 capitalizeFirst JS.toNumberDecimal self
      = Run [NewDiagTool "10.1.1.3" "node-1"; RetrySyncDiscovery 5000 6;
             SyncDiscovery 0; Delay 5000; SyncDiscovery 1; Delay 5000;
             SyncDiscovery 2; Delay 5000; SyncDiscovery 3; Delay 5000;
             SyncDiscovery 4; Delay 5000; SyncDiscovery 5;
             Done (Some DiscoveryTimeout)]
            (set_diagTool self agentSilent) (Ok tt).
Proof.
  eexists. split; [reflexivity|].
  destruct (discovery_retry_parameters (fun _ _ => agentSilent) isIPv4 capitalizeFirst
              JS.toNumberDecimal (sampleOptions "bmc" (ModeStr "fullbmc") None)
              (sampleContext "10.1.1.3") "task" _ eq_refl eq_refl) as (_ & _ & _ & E).
  apply E. intros k Hk. discriminate.
Defined.

Lemma reset_unless_skipReset_witness :
  exists self,
    DiagUpdateFirmware (sampleOptions "bmc" (ModeStr "fullbmc") (Some true))
                       (sampleContext "10.1.1.3") "task" = Ok self /\
    skipReset self = true /\
    trace (_run (fun _ _ => agentOk JS.Undefined) isIPv4 capitalizeFirst JS.toNumberDecimal self)
      = [NewDiagTool "10.1.1.3" "node-1"; RetrySyncDiscovery 5000 6; SyncDiscovery 0;
         GetAllDevices;
         UploadImageFile "http://10.1.1.1/bios.bin" "bios.bin" "/api/upload/file";
         UpdateFirmware "bmc" "bios.bin" (MString "0x5f") "/uploads";
         Done None].
Proof.
  eexists. split; [reflexivity|].
  destruct (reset_unless_skipReset (fun _ _ => agentOk JS.Undefined) isIPv4 capitalizeFirst
              JS.toNumberDecimal (sampleOptions "bmc" (ModeStr "fullbmc") (Some true))
              (sampleContext "10.1.1.3") "task" _ "0x5f" JS.Undefined eq_refl eq_refl)
    as (Hskip & Hbmc & _).
  split; [exact Hskip|].
  destruct (Hbmc eq_refl eq_refl ltac:(decide_closed) eq_refl) as (_ & E).
  rewrite E. reflexivity.
Defined.

Lemma unknown_firmwareType_fails_at_dispatch_witness :
  exists self,
    DiagUpdateFirmware (sampleOptions "bios" (ModeInt 3) None)
                       (sampleContext "10.1.1.3") "task" = Ok self /\
    trace (_run (fun _ _ => agentOk bodyAccepted) isIPv4 capitalizeFirst JS.toNumberDecimal self)
      = [NewDiagTool "10.1.1.3" "node-1"; RetrySyncDiscovery 5000 6; SyncDiscovery 0;
         GetAllDevices;
         UploadImageFile "http://10.1.1.1/bios.bin" "bios.bin" "/api/upload/file";
         Done (Some (TypeError "self[method] is not a function"))].
Proof.
  destruct (unknown_firmwareType_fails_at_dispatch (fun _ _ => agentOk bodyAccepted) isIPv4
              capitalizeFirst JS.toNumberDecimal (sampleOptions "bios" (ModeInt 3) None)
              (sampleContext "10.1.1.3") "task")
    as (self & Hc & _ & _ & E).
  - vm_compute. discriminate.
  - vm_compute. discriminate.
  - exists self. split; [exact Hc|].
    injection Hc as <-. rewrite (E eq_refl). reflexivity.
Defined.

(** C9, as stated, fails on a type that is outside {"bmc", "spi"} and
    whose capitalised form names an update procedure: for ["Bmc"] the
    lookup yields [updateBmc], the BMC update runs and the job succeeds. *)
Lemma capitalized_type_is_dispatched :
  ("Bmc" ∉ ["bmc"; "spi"]) /\
  exists self,
    DiagUpdateFirmware (sampleOptions "Bmc" (ModeStr "ssp") None)
                       (sampleContext "10.1.1.3") "task" = Ok self /\
    member JS.toNumberDecimal ("update" +:+ capitalizeFirst (firmwareType self)) <> None /\
    trace (_run (fun _ _ => agentOk JS.Undefined) isIPv4 capitalizeFirst JS.toNumberDecimal self)
      = [NewDiagTool "10.1.1.3" "node-1"; RetrySyncDiscovery 5000 6; SyncDiscovery 0;
         GetAllDevices;
         UploadImageFile "http://10.1.1.1/bios.bin" "bios.bin" "/api/upload/file";
         UpdateFirmware "bmc" "bios.bin" (MString "0x142") "/uploads";
         BmcReset false; Done None].
Proof.
  split; [decide_closed|]. eexists. split; [reflexivity|].
  split; [|vm_compute; reflexivity].
  rewrite member_update. rewrite bool_decide_eq_true_2 by reflexivity. discriminate.
Qed.

Lemma bmc_update_ignores_body_witness :
  exists self,
    DiagUpdateFirmware (sampleOptions "bmc" (ModeStr "bootblock") None)
                       (sampleContext "10.1.1.3") "task" = Ok self /\
    updateBmc "bios.bin" (ModeStr "bootblock") "/uploads"
              (set_diagTool self (withBody (agentOk JS.Null) (JS.Str "anything")))
      = Run [UpdateFirmware "bmc" "bios.bin" (MString "0x144") "/uploads"; BmcReset false]
            (set_diagTool self (withBody (agentOk JS.Null) (JS.Str "anything")))
            (Ok tt).
Proof.
  eexists. split; [reflexivity|].
  match goal with
  | |- updateBmc _ _ _ (set_diagTool ?s _) = _ =>
      destruct (bmc_update_ignores_body JS.toNumberDecimal s (agentOk JS.Null) "bios.bin"
                  (ModeStr "bootblock") "/uploads") as (_ & E & _)
  end.
  apply (E "0x144" (JS.Str "anything") eq_refl). decide_closed.
Defined.

(** ** Further properties: the modes the update procedures accept *)

(** The string form of a number begins with a digit or a minus sign; it is
    none of the names and none of the hexadecimal codes. *)
Lemma numberToString_first (n : Z) :
  exists c rest, JS.numberToString n = String c rest /\
                 (JS.isDecimalDigit c = true \/ c = "-"%char).
Proof.
  destruct (numberToString_shape n) as (s & (c & rest & Hc & _ & _ & ->) & [E|E]);
    rewrite E.
  - exists c, rest. split; [reflexivity|]. left. exact Hc.
  - eexists _, _. split; [reflexivity|]. right. reflexivity.
Qed.

Lemma parseSpiMode_not_number (self : job) (m : mode) (n : Z) :
  parseSpiMode self m <> MNumber n.
Proof.
  unfold parseSpiMode, getProperty. destruct (parseInt m); [discriminate|].
  destruct (spiModeMapping self !! modeToString m); [discriminate|].
  destruct (bool_decide _); discriminate.
Qed.

(** X1: in the SPI path the translated mode is checked against the six
    codes before anything is sent: [updateSpi] fails with the validation
    error and an empty trace exactly when the translation is not one of
    ["0"] to ["5"]. *)
Theorem updateSpi_rejects_invalid_mode (toNumber : JS.value -> result (option Z))
    (self : job) (imageName : string) (imageMode : mode) (diagImagePath : string) :
  (forall s, parseSpiMode self imageMode = MString s -> s ∉ spiValid)
  <-> updateSpi toNumber imageName imageMode diagImagePath self
        = Run [] self (Throw (AssertionError "isIn")).
Proof.
  split.
  - intros H. unfold updateSpi, then_.
    destruct (parseSpiMode self imageMode) as [|s|n|b] eqn:E; simpl; try reflexivity.
    + rewrite bool_decide_eq_false_2 by (apply H; reflexivity). reflexivity.
    + exfalso. exact (parseSpiMode_not_number _ _ _ E).
  - intros H s E Hv. revert H. unfold updateSpi, then_. rewrite E.
    unfold spiValid in Hv. rewrite (assert_isIn_member s _ self Hv). simpl.
    unfold call. destruct (diagTool self) as [tool|] eqn:Ht; simpl; [|discriminate].
    destruct (updateFirmware tool _ _ _ _) as [body|]; simpl; [|discriminate].
    destruct (readResetFlag toNumber body) as [flag|]; simpl; [|discriminate].
    destruct (negb (JS.isEqual flag _) || _); simpl; [discriminate|].
    destruct (skipReset self); simpl; [discriminate|].
    rewrite Ht. discriminate.
Qed.

Lemma updateSpi_rejects_invalid_mode_witness :
  exists self,
    DiagUpdateFirmware (sampleOptions "spi" (ModeStr "3abc") None)
                       (sampleContext "10.1.1.3") "task" = Ok self /\
    updateSpi JS.toNumberDecimal "bios.bin" (ModeStr "3abc") "/uploads" self
      = Run [] self (Throw (AssertionError "isIn")).
Proof.
  eexists. split; [reflexivity|].
  apply (proj1 (updateSpi_rejects_invalid_mode JS.toNumberDecimal _ "bios.bin"
                  (ModeStr "3abc") "/uploads")).
  intros s E. vm_compute in E. injection E as <-. decide_closed.
Defined.

Lemma mapping_lookup (l : list (string * string)) (key v : string) :
  (list_to_map l : gmap string string) !! key = Some v -> (key, v) ∈ l.
Proof. apply elem_of_list_to_map_2. Qed.

(** X2: the SPI modes that pass translation and validation are exactly
    those whose string form is one of the six codes or one of the six
    names; among the numbers these are 0 to 5. A padded, signed, prefixed
    or suffixed number is not among them. *)
Theorem spi_modes_accepted options ctx taskId self :
  DiagUpdateFirmware options ctx taskId = Ok self ->
  (forall m,
     (exists v, parseSpiMode self m = MString v /\ v ∈ spiValid)
     <-> modeToString m ∈ (spiValid ++ spiMappingSpec.*1)%list) /\
  (forall n,
     (exists v, parseSpiMode self (ModeInt n) = MString v /\ v ∈ spiValid)
     <-> 0 <= n <= 5).
Proof.
  intros H. destruct (constructed_fields _ _ _ _ H) as (Hspi & _).
  assert (Hall : forall m,
     (exists v, parseSpiMode self m = MString v /\ v ∈ spiValid)
     <-> modeToString m ∈ (spiValid ++ spiMappingSpec.*1)%list).
  { intros m. unfold parseSpiMode. rewrite Hspi. split.
    - intros (v & E & Hv). destruct (parseInt m) eqn:Ep.
      + injection E as <-. apply elem_of_app. left. exact Hv.
      + unfold getProperty in E.
        destruct (list_to_map spiMappingSpec !! modeToString m) as [w|] eqn:El.
        * apply mapping_lookup in El. apply elem_of_app. right.
          apply list_elem_of_fmap. exists (modeToString m, w). split; [reflexivity|exact El].
        * destruct (bool_decide _); discriminate.
    - intros Hin. apply elem_of_app in Hin as [Hin|Hin].
      + exists (modeToString m). split; [|exact Hin].
        unfold parseInt. unfold spiValid in Hin.
        repeat (apply elem_of_cons in Hin as [->|Hin]; [reflexivity|]).
        apply elem_of_nil in Hin. destruct Hin.
      + unfold parseInt. cbn in Hin.
        repeat (apply elem_of_cons in Hin as [->|Hin];
                [eexists; split; [vm_compute; reflexivity | decide_closed]|]).
        apply elem_of_nil in Hin. destruct Hin. }
  split; [exact Hall|].
  intros n. rewrite Hall. simpl modeToString. split.
  - intros Hin. apply elem_of_app in Hin as [Hin|Hin].
    + unfold spiValid in Hin.
      repeat (apply elem_of_cons in Hin as [Hin|Hin];
              [match type of Hin with
               | _ = ?lit =>
                   let k := eval vm_compute in (default 0 (JS.parseIntString lit)) in
                   change lit with (JS.numberToString k) in Hin;
                   apply numberToString_small in Hin; [lia | reflexivity]
               end|]).
      apply elem_of_nil in Hin. destruct Hin.
    + exfalso. destruct (numberToString_first n) as (c & rest & E & Hc).
      rewrite E in Hin. cbn in Hin.
      repeat (apply elem_of_cons in Hin as [[= -> _]|Hin];
              [destruct Hc as [Hc|Hc]; discriminate Hc|]).
      apply elem_of_nil in Hin. destruct Hin.
  - intros Hn. apply elem_of_app. left.
    assert (n = 0 \/ n = 1 \/ n = 2 \/ n = 3 \/ n = 4 \/ n = 5) as Hc by lia.
    destruct Hc as [->|[->|[->|[->|[->| ->]]]]]; decide_closed.
Qed.

Lemma spi_modes_accepted_witness :
  exists self,
    DiagUpdateFirmware (sampleOptions "spi" (ModeStr " 3") None)
                       (sampleContext "10.1.1.3") "task" = Ok self /\
    ~ (exists v, parseSpiMode self (ModeStr " 3") = MString v /\ v ∈ spiValid) /\
    ~ (exists v, parseSpiMode self (ModeInt 6) = MString v /\ v ∈ spiValid).
Proof.
  eexists. split; [reflexivity|].
  destruct (spi_modes_accepted (sampleOptions "spi" (ModeStr " 3") None)
              (sampleContext "10.1.1.3") "task" _ eq_refl) as (Hall & Hnum).
  split.
  - intros Hv. apply Hall in Hv. revert Hv. decide_closed.
  - intros Hv. apply Hnum in Hv. lia.
Defined.

(** X3: the BMC modes that pass translation and validation are exactly
    those whose string form is one of the five codes or one of the five
    names; no number is among them. *)
Theorem bmc_modes_accepted options ctx taskId self :
  DiagUpdateFirmware options ctx taskId = Ok self ->
  (forall m,
     (exists v, parseBmcMode self m = MString v /\ v ∈ bmcValid)
     <-> modeToString m ∈ (bmcValid ++ bmcMappingSpec.*1)%list) /\
  (forall n, ~ exists v, parseBmcMode self (ModeInt n) = MString v /\ v ∈ bmcValid).
Proof.
  intros H. destruct (constructed_fields _ _ _ _ H) as (_ & Hbmc & _).
  assert (Hnum : forall n, JS.numberToString n ∉ (bmcValid ++ bmcMappingSpec.*1)%list).
  { intros n Hin. apply elem_of_app in Hin as [Hin|Hin].
    - pose proof (numberToString_no_hex_prefix n) as Hp. unfold bmcValid in Hin.
      repeat (apply elem_of_cons in Hin as [Hin|Hin];
              [rewrite Hin in Hp; discriminate Hp|]).
      apply elem_of_nil in Hin. destruct Hin.
    - destruct (numberToString_first n) as (c & rest & E & Hc).
      rewrite E in Hin. cbn in Hin.
      repeat (apply elem_of_cons in Hin as [[= -> _]|Hin];
              [destruct Hc as [Hc|Hc]; discriminate Hc|]).
      apply elem_of_nil in Hin. destruct Hin. }
  assert (Hall : forall m,
     (exists v, parseBmcMode self m = MString v /\ v ∈ bmcValid)
     <-> modeToString m ∈ (bmcValid ++ bmcMappingSpec.*1)%list).
  { intros m. unfold parseBmcMode. rewrite Hbmc. split.
    - intros (v & E & Hv).
      destruct (JS.startsWith (modeToString m) "0x") eqn:Es; cbn [negb] in E.
      + destruct m as [s|n]; simpl in E; [|discriminate].
        injection E as <-. apply elem_of_app. left. exact Hv.
      + unfold getProperty in E.
        destruct (list_to_map bmcMappingSpec !! modeToString m) as [w|] eqn:El.
        * apply mapping_lookup in El. apply elem_of_app. right.
          apply list_elem_of_fmap. exists (modeToString m, w). split; [reflexivity|exact El].
        * destruct (bool_decide _); discriminate.
    - intros Hin. destruct m as [s|n]; [|exfalso; exact (Hnum n Hin)].
      cbn in Hin.
      repeat (apply elem_of_cons in Hin as [->|Hin];
              [eexists; split; [vm_compute; reflexivity | decide_closed]|]).
      apply elem_of_nil in Hin. destruct Hin. }
  split; [exact Hall|].
  intros n Hv. apply Hall in Hv. exact (Hnum n Hv).
Qed.

Lemma bmc_modes_accepted_witness :
  exists self,
    DiagUpdateFirmware (sampleOptions "bmc" (ModeStr "0X142") None)
                       (sampleContext "10.1.1.3") "task" = Ok self /\
    ~ (exists v, parseBmcMode self (ModeStr "0X142") = MString v /\ v ∈ bmcValid) /\
    ~ (exists v, parseBmcMode self (ModeInt 322) = MString v /\ v ∈ bmcValid).
Proof.
  eexists. split; [reflexivity|].
  destruct (bmc_modes_accepted (sampleOptions "bmc" (ModeStr "0X142") None)
              (sampleContext "10.1.1.3") "task" _ eq_refl) as (Hall & Hnum).
  split.
  - intros Hv. apply Hall in Hv. revert Hv. decide_closed.
  - apply Hnum.
Defined.

(** X4: translation is idempotent: whenever a mode translates to a
    string, that string translates to itself, for SPI and for BMC. *)
Theorem translation_idempotent options ctx taskId self :
  DiagUpdateFirmware options ctx taskId = Ok self ->
  (forall m v, parseSpiMode self m = MString v ->
     parseSpiMode self (ModeStr v) = MString v) /\
  (forall m v, parseBmcMode self m = MString v ->
     parseBmcMode self (ModeStr v) = MString v).
Proof.
  intros H. destruct (constructed_fields _ _ _ _ H) as (Hspi & Hbmc & _).
  split; intros m v E.
  - unfold parseSpiMode in *. rewrite Hspi in *.
    destruct (parseInt m) as [z|] eqn:Ep.
    + injection E as <-.
      assert (Ep' : parseInt (ModeStr (modeToString m)) = Some z)
        by (destruct m; exact Ep).
      rewrite Ep'. reflexivity.
    + unfold getProperty in E.
      destruct (list_to_map spiMappingSpec !! modeToString m) as [w|] eqn:El.
      * injection E as ->. apply mapping_lookup in El. unfold spiMappingSpec in El.
        repeat (apply elem_of_cons in El as [[= _ ->]|El]; [reflexivity|]).
        apply elem_of_nil in El. destruct El.
      * destruct (bool_decide _); discriminate.
  - unfold parseBmcMode in *. rewrite Hbmc in *.
    destruct (JS.startsWith (modeToString m) "0x") eqn:Es; cbn [negb] in E.
    + destruct m as [s|n]; simpl in E; [|discriminate].
      injection E as <-. simpl in Es. simpl modeToString. rewrite Es. reflexivity.
    + unfold getProperty in E.
      destruct (list_to_map bmcMappingSpec !! modeToString m) as [w|] eqn:El.
      * injection E as ->. apply mapping_lookup in El. unfold bmcMappingSpec in El.
        repeat (apply elem_of_cons in El as [[= _ ->]|El]; [reflexivity|]).
        apply elem_of_nil in El. destruct El.
      * destruct (bool_decide _); discriminate.
Qed.

Lemma translation_idempotent_witness :
  exists self,
    DiagUpdateFirmware (sampleOptions "spi" (ModeStr "post") None)
                       (sampleContext "10.1.1.3") "task" = Ok self /\
    parseSpiMode self (ModeStr "4") = MString "4" /\
    parseBmcMode self (ModeStr "0x5f") = MString "0x5f".
Proof.
  eexists. split; [reflexivity|].
  destruct (translation_idempotent (sampleOptions "spi" (ModeStr "post") None)
              (sampleContext "10.1.1.3") "task" _ eq_refl) as (Hs & Hb).
  split.
  - apply (Hs (ModeStr "post")). reflexivity.
  - apply (Hb (ModeStr "fullbmc")). reflexivity.
Defined.

(** ** Further properties: the runs of the job *)

Section Coverage.

Variable DiagTool : string -> string -> agent.
Variable isIP : string -> Z -> bool.
Variable capitalize : string -> string.
Variable toNumber : JS.value -> result (option Z).

Local Abbreviation uploaded' := (uploaded DiagTool isIP).
Local Abbreviation run' := (_run DiagTool isIP capitalize toNumber).
Local Abbreviation toolOf' := (toolOf DiagTool).
Local Abbreviation dispatching' := (dispatching capitalize toNumber).
Local Abbreviation dispatched' := (dispatched DiagTool isIP capitalize toNumber).

Lemma updateBmc_invalid (self : job) (imageName : string) (imageMode : mode)
    (path : string) :
  (forall v, parseBmcMode self imageMode = MString v -> v ∉ bmcValid) ->
  updateBmc imageName imageMode path self = Run [] self (Throw (AssertionError "isIn")).
Proof.
  intros H. unfold updateBmc, then_.
  destruct (parseBmcMode self imageMode) as [|s|n|b] eqn:E; simpl; try reflexivity.
  - rewrite bool_decide_eq_false_2 by (apply H; reflexivity). reflexivity.
  - exfalso. exact (parseBmcMode_not_number _ _ _ E).
Qed.

Lemma updateSpi_invalid (self : job) (imageName : string) (imageMode : mode)
    (path : string) :
  (forall v, parseSpiMode self imageMode = MString v -> v ∉ spiValid) ->
  updateSpi toNumber imageName imageMode path self
    = Run [] self (Throw (AssertionError "isIn")).
Proof.
  intros H. unfold updateSpi, then_.
  destruct (parseSpiMode self imageMode) as [|s|n|b] eqn:E; simpl; try reflexivity.
  - rewrite bool_decide_eq_false_2 by (apply H; reflexivity). reflexivity.
  - exfalso. exact (parseSpiMode_not_number _ _ _ E).
Qed.

Lemma updateBmc_refused (self : job) (tool : agent) (imageName : string)
    (imageMode : mode) (path v : string) (e : error) :
  diagTool self = Some tool ->
  parseBmcMode self imageMode = MString v -> v ∈ bmcValid ->
  updateFirmware tool "bmc" imageName (MString v) path = Throw e ->
  updateBmc imageName imageMode path self
    = Run [UpdateFirmware "bmc" imageName (MString v) path] self (Throw e).
Proof.
  intros Ht Hm Hv Hu. unfold updateBmc, then_. rewrite Hm. unfold bmcValid in Hv.
  rewrite (assert_isIn_member v _ self Hv). simpl.
  rewrite (call_with_tool _ _ _ self tool Ht). simpl. rewrite Hu. reflexivity.
Qed.

Lemma updateSpi_refused (self : job) (tool : agent) (imageName : string)
    (imageMode : mode) (path v : string) (e : error) :
  diagTool self = Some tool ->
  parseSpiMode self imageMode = MString v -> v ∈ spiValid ->
  updateFirmware tool "spi" imageName (MString v) path = Throw e ->
  updateSpi toNumber imageName imageMode path self
    = Run [UpdateFirmware "spi" imageName (MString v) path] self (Throw e).
Proof.
  intros Ht Hm Hv Hu. unfold updateSpi, then_. rewrite Hm. unfold spiValid in Hv.
  rewrite (assert_isIn_member v _ self Hv). simpl.
  rewrite (call_with_tool _ _ _ self tool Ht). simpl. rewrite Hu. reflexivity.
Qed.

(** Either a translation is one of the valid codes, or no string it yields
    is. *)
Lemma valid_or_not (translated : mval) (valid : list string) :
  (exists v, translated = MString v /\ v ∈ valid) \/
  (forall v, translated = MString v -> v ∉ valid).
Proof.
  destruct translated as [|s|n|b].
  - right. intros v E. discriminate E.
  - destruct (decide (s ∈ valid)) as [Hin|Hout].
    + left. exists s. split; [reflexivity|exact Hin].
    + right. intros v [= <-]. exact Hout.
  - right. intros v E. discriminate E.
  - right. intros v E. discriminate E.
Qed.

Lemma prompt_or_not (r : result JS.value) (prompt : string) :
  r = Ok (JS.Str prompt) \/ r <> Ok (JS.Str prompt).
Proof.
  destruct r as [[| |b|n|s|l|o]|e]; try (right; discriminate).
  destruct (decide (s = prompt)) as [->|Hne]; [left; reflexivity|].
  right. intros [= E]. exact (Hne E).
Qed.

(** The update stage of a job whose agent client is in place goes in one
    of the listed ways and leaves the job object as it is. *)
Lemma dispatching_result (self : job) :
  let ready := set_diagTool self (toolOf' self) in
  dispatchResult capitalize toNumber self (toolOf' self)
                 (trace (dispatching' self ready)) (outcome (dispatching' self ready)) /\
  this (dispatching' self ready) = ready.
Proof.
  intros ready. subst ready.
  assert (Ht : diagTool (set_diagTool self (toolOf' self)) = Some (toolOf' self))
    by reflexivity.
  destruct (decide (capitalize (firmwareType self) = "Bmc")) as [Hb|Hb];
    [|destruct (decide (capitalize (firmwareType self) = "Spi")) as [Hs|Hs]].
  - rewrite (dispatching_bmc capitalize toNumber self _ Hb).
    destruct (valid_or_not (parseBmcMode self (imageMode self)) bmcValid)
      as [(v & Hm & Hv)|Hinv].
    + destruct (updateFirmware (toolOf' self) "bmc" (imageName self) (MString v)
                               (diagImagePath self)) as [body|e] eqn:Hu.
      * rewrite (updateBmc_after_update _ (toolOf' self) (imageName self) (imageMode self)
                    (diagImagePath self) v body Ht Hm Hv Hu).
        cbn [trace outcome this set_diagTool skipReset nodeId].
        split; [|reflexivity]. eapply dispatch_bmc_updated; eassumption.
      * rewrite (updateBmc_refused _ (toolOf' self) (imageName self) (imageMode self)
                    (diagImagePath self) v e Ht Hm Hv Hu).
        cbn [trace outcome this set_diagTool skipReset nodeId].
        split; [|reflexivity]. eapply dispatch_bmc_refused; eassumption.
    + rewrite (updateBmc_invalid (set_diagTool self (toolOf' self)) (imageName self)
                 (imageMode self) (diagImagePath self) Hinv).
      cbn [trace outcome this set_diagTool skipReset nodeId].
        split; [|reflexivity]. apply dispatch_bmc_invalid; assumption.
  - rewrite (dispatching_spi capitalize toNumber self _ Hs).
    destruct (valid_or_not (parseSpiMode self (imageMode self)) spiValid)
      as [(v & Hm & Hv)|Hinv].
    + destruct (updateFirmware (toolOf' self) "spi" (imageName self) (MString v)
                               (diagImagePath self)) as [body|e] eqn:Hu.
      * destruct (prompt_or_not (readResetFlag toNumber body) "Issue warm reset NOW!")
          as [Hp|Hp].
        -- rewrite (updateSpi_accepted toNumber _ (toolOf' self) (imageName self) (imageMode self)
                    (diagImagePath self) v body
                      Ht Hm Hv Hu Hp).
           cbn [trace outcome this set_diagTool skipReset nodeId].
        split; [|reflexivity]. eapply dispatch_spi_updated; eassumption.
        -- rewrite (updateSpi_rejected toNumber _ (toolOf' self) (imageName self) (imageMode self)
                    (diagImagePath self) v body
                      Ht Hm Hv Hu Hp).
           cbn [trace outcome this set_diagTool skipReset nodeId].
        split; [|reflexivity]. eapply dispatch_spi_unconfirmed; eassumption.
      * rewrite (updateSpi_refused _ (toolOf' self) (imageName self) (imageMode self)
                    (diagImagePath self) v e Ht Hm Hv Hu).
        cbn [trace outcome this set_diagTool skipReset nodeId].
        split; [|reflexivity]. eapply dispatch_spi_refused; eassumption.
    + rewrite (updateSpi_invalid (set_diagTool self (toolOf' self)) (imageName self)
                 (imageMode self) (diagImagePath self) Hinv).
      cbn [trace outcome this set_diagTool skipReset nodeId].
        split; [|reflexivity]. apply dispatch_spi_invalid; assumption.
  - rewrite (dispatching_unknown capitalize toNumber self _ Hb Hs).
    cbn [trace outcome this set_diagTool skipReset nodeId].
        split; [|reflexivity]. apply dispatch_unknown; assumption.
Qed.

Lemma uploaded_this_any (self : job) :
  this (uploaded' self)
    = if isIP (Context.nodeIp (context self)) 4 then set_diagTool self (toolOf' self)
      else self.
Proof.
  unfold uploaded, Promise_try, then_.
  destruct (isIP (Context.nodeIp (context self)) 4) eqn:H.
  - rewrite (discovering_wellformed DiagTool isIP _ _ H). cbn [outcome this trace].
    destruct (outcome (retryLoop _ _ _ _ _)) as [[]|e]; cbn [outcome this trace];
      [|reflexivity].
    unfold enumerating. rewrite call_this.
    destruct (outcome (call "getAllDevices" GetAllDevices getAllDevices _)) as [[]|e];
      cbn [outcome this trace]; [|reflexivity].
    unfold uploading. rewrite call_this. reflexivity.
  - rewrite (discovering_malformed DiagTool isIP _ _ H). reflexivity.
Qed.

(** A run, as far as it gets. *)
Lemma run_result (self : job) :
  (exists e, outcome (uploaded' self) = Throw e /\
             run' self = Run (trace (uploaded' self) ++ [Done (Some e)])
                             (this (uploaded' self)) (Ok tt)) \/
  (outcome (uploaded' self) = Ok tt /\
   exists tail res,
     dispatchResult capitalize toNumber self (toolOf' self) tail res /\
     run' self = Run (trace (uploaded' self) ++ tail ++ [Done (errorOf res)])
                     (set_diagTool self (toolOf' self)) (Ok tt)).
Proof.
  destruct (outcome (uploaded' self)) as [[]|e] eqn:Hup.
  - right. split; [reflexivity|].
    destruct (dispatching_result self) as [Hd Hthis]. cbv zeta in Hd, Hthis.
    eexists _, _. split; [exact Hd|].
    rewrite (run_after_upload DiagTool isIP capitalize toNumber self Hup).
    cbv zeta. rewrite Hthis. reflexivity.
  - left. exists e. split; [reflexivity|].
    rewrite run_dispatched, dispatched_uploaded, Hup. reflexivity.
Qed.

Lemma beforeDispatch_elem (evs : list event) (ev : event) :
  forallb beforeDispatch evs = true -> ev ∈ evs -> beforeDispatch ev = true.
Proof.
  intros H Hin. apply list_elem_of_In in Hin.
  exact (proj1 (forallb_forall _ _) H ev Hin).
Qed.

(** Where an event of the update stage sits in the trace of a run. *)
Lemma run_event (self : job) (ev : event) :
  ev ∈ trace (run' self) ->
  beforeDispatch ev = false ->
  (forall err, ev <> Done err) ->
  outcome (uploaded' self) = Ok tt /\
  exists tail res,
    dispatchResult capitalize toNumber self (toolOf' self) tail res /\
    trace (run' self) = (trace (uploaded' self) ++ tail ++ [Done (errorOf res)])%list /\
    ev ∈ tail.
Proof.
  intros Hin Hnb Hnd.
  pose proof (uploaded_beforeDispatch DiagTool isIP self) as Hup.
  destruct (run_result self) as [(e & He & Hrun)|(Hok & tail & res & Hd & Hrun)];
    rewrite Hrun in Hin; cbn [trace] in Hin.
  - exfalso. apply elem_of_app in Hin as [Hin|Hin].
    + rewrite (beforeDispatch_elem _ _ Hup Hin) in Hnb. discriminate.
    + apply list_elem_of_singleton in Hin. exact (Hnd _ Hin).
  - split; [exact Hok|]. exists tail, res. split; [exact Hd|].
    split; [rewrite Hrun; reflexivity|].
    apply elem_of_app in Hin as [Hin|Hin].
    + exfalso. rewrite (beforeDispatch_elem _ _ Hup Hin) in Hnb. discriminate.
    + apply elem_of_app in Hin as [Hin|Hin]; [exact Hin|].
      exfalso. apply list_elem_of_singleton in Hin. exact (Hnd _ Hin).
Qed.

Lemma constructed_image options ctx taskId self :
  DiagUpdateFirmware options ctx taskId = Ok self ->
  imageName self = Options.imageName options /\
  imageUrl self = Options.imageUrl options /\
  imageMode self = Options.imageMode options.
Proof. intros H. injection H as <-. repeat split. Qed.

(** X5: whatever the options, the agent is only ever asked for a firmware
    update of the job's image at the path [/uploads], of the kind the
    firmware type selects, and with one of the valid codes of that kind. *)
Theorem agent_updates_are_valid options ctx taskId self kind name mode path :
  DiagUpdateFirmware options ctx taskId = Ok self ->
  UpdateFirmware kind name mode path ∈ trace (run' self) ->
  name = Options.imageName options /\ path = "/uploads" /\
  exists v, mode = MString v /\
    ((kind = "bmc" /\ capitalize (Options.firmwareType options) = "Bmc" /\ v ∈ bmcValid) \/
     (kind = "spi" /\ capitalize (Options.firmwareType options) = "Spi" /\ v ∈ spiValid)).
Proof.
  intros Hc Hin.
  destruct (constructed_fields _ _ _ _ Hc) as (_ & _ & _ & _ & _ & Hpath & _ & _ & Hft & _).
  destruct (constructed_image _ _ _ _ Hc) as (Hname & _).
  destruct (run_event self _ Hin eq_refl ltac:(discriminate))
    as (_ & tail & res & Hd & _ & Ht).
  rewrite <- Hname, <- Hpath, <- Hft.
  inversion Hd; subst tail;
    repeat (apply elem_of_cons in Ht as [Ht|Ht]; [try discriminate Ht|]);
    try (apply elem_of_nil in Ht; destruct Ht);
    try (destruct (skipReset self);
         repeat (apply elem_of_cons in Ht as [Ht|Ht]; [try discriminate Ht|]);
         try (apply elem_of_nil in Ht; destruct Ht));
    injection Ht as -> -> -> ->; (split; [reflexivity|]); (split; [reflexivity|]);
    eexists; (split; [reflexivity|]); auto.
Qed.

(** X6: every run is the events of discovery, enumeration and upload,
    then, only if these succeeded, the update stage in one of its ways
    (unknown firmware type, invalid mode, update refused, update done with or
    without the reset, SPI response without the prompt), then the end
    signal with the error of the first failure. *)
Theorem run_ways (self : job) :
  forallb beforeDispatch (trace (uploaded' self)) = true /\
  ((exists e, outcome (uploaded' self) = Throw e /\
              trace (run' self) = (trace (uploaded' self) ++ [Done (Some e)])%list) \/
   (outcome (uploaded' self) = Ok tt /\
    exists tail res,
      dispatchResult capitalize toNumber self (toolOf' self) tail res /\
      trace (run' self) = (trace (uploaded' self) ++ tail ++ [Done (errorOf res)])%list)).
Proof.
  split; [apply uploaded_beforeDispatch|].
  destruct (run_result self) as [(e & He & Hrun)|(Hok & tail & res & Hd & Hrun)].
  - left. exists e. split; [exact He|]. rewrite Hrun. reflexivity.
  - right. split; [exact Hok|]. exists tail, res. split; [exact Hd|].
    rewrite Hrun. reflexivity.
Qed.

(** X7: a run changes nothing of the job object but [diagTool], which it
    sets once the address has passed the check, whatever happens later. *)
Theorem run_assigns_only_diagTool (self : job) :
  this (run' self)
    = if isIP (Context.nodeIp (context self)) 4 then set_diagTool self (toolOf' self)
      else self.
Proof.
  destruct (run_result self) as [(e & He & Hrun)|(Hok & tail & res & Hd & Hrun)];
    rewrite Hrun; cbn [this].
  - apply uploaded_this_any.
  - pose proof (uploaded_this_any self) as E.
    rewrite (uploaded_this DiagTool isIP self Hok) in E. exact E.
Qed.

(** X10: an error is logged only by the SPI path, with the body the agent
    answered and the node of the job, when reading the prompt from that body
    failed; the log entry is followed at once by the end signal with the
    error "Failed to get reset flags from diag". *)
Theorem logged_failure_ends_job (self : job) (message : string) (err : option error)
    (body : JS.value) (node : string) :
  LoggerError message err body node ∈ trace (run' self) ->
  message = "Failed to get reset flags from diag" /\ node = nodeId self /\
  capitalize (firmwareType self) = "Spi" /\
  readResetFlag toNumber body <> Ok (JS.Str "Issue warm reset NOW!") /\
  err = errorOf (readResetFlag toNumber body) /\
  (exists v, updateFirmware (toolOf' self) "spi" (imageName self) (MString v)
                            (diagImagePath self) = Ok body) /\
  exists evs, trace (run' self)
              = (evs ++ [LoggerError message err body node;
                         Done (Some (Error "Failed to get reset flags from diag"))])%list.
Proof.
  intros Hin.
  destruct (run_event self _ Hin eq_refl ltac:(discriminate))
    as (_ & tail & res & Hd & Hrun & Ht).
  inversion Hd; subst tail res;
    repeat (apply elem_of_cons in Ht as [Ht|Ht]; [try discriminate Ht|]);
    try (apply elem_of_nil in Ht; destruct Ht);
    try (destruct (skipReset self);
         repeat (apply elem_of_cons in Ht as [Ht|Ht]; [try discriminate Ht|]);
         try (apply elem_of_nil in Ht; destruct Ht)).
  all: injection Ht as Hmsg Herr Hbody Hnode; subst message err body node.
  all: repeat (split; [first [reflexivity | assumption]|]).
  all: split; [eexists; eassumption|].
  all: rewrite Hrun; cbn [errorOf].
  all: match goal with
       | |- exists evs, (?up ++ [?U; ?L] ++ [?D])%list = _ => exists (up ++ [U])%list
       end.
  all: rewrite <- app_assoc; reflexivity.
Qed.

(** X11: a job that ends without an error has had its image uploaded and
    its firmware update answered by the agent (for SPI with the prompt in
    the answer) and, unless [skipReset] is set, the reset of its kind
    answered as well. *)
Theorem success_means_updated (self : job) :
  Done None ∈ trace (run' self) ->
  outcome (uploaded' self) = Ok tt /\
  exists kind v body,
    UpdateFirmware kind (imageName self) (MString v) (diagImagePath self)
      ∈ trace (run' self) /\
    updateFirmware (toolOf' self) kind (imageName self) (MString v) (diagImagePath self)
      = Ok body /\
    (kind = "spi" -> readResetFlag toNumber body = Ok (JS.Str "Issue warm reset NOW!")) /\
    (skipReset self = false ->
       (kind = "bmc" /\ BmcReset false ∈ trace (run' self) /\
        bmcReset (toolOf' self) false = Ok tt) \/
       (kind = "spi" /\ WarmReset false ∈ trace (run' self) /\
        warmReset (toolOf' self) false = Ok tt)).
Proof.
  intros Hin.
  pose proof (uploaded_beforeDispatch DiagTool isIP self) as Hup.
  destruct (run_result self) as [(e & He & Hrun)|(Hok & tail & res & Hd & Hrun)];
    rewrite Hrun in *; cbn [trace] in *.
  - exfalso. apply elem_of_app in Hin as [Hin|Hin].
    + pose proof (beforeDispatch_elem _ _ Hup Hin) as Hb. discriminate Hb.
    + apply list_elem_of_singleton in Hin. discriminate Hin.
  - split; [exact Hok|].
    assert (Hres : res = Ok tt).
    { apply elem_of_app in Hin as [Hin|Hin].
      - pose proof (beforeDispatch_elem _ _ Hup Hin) as Hb. discriminate Hb.
      - apply elem_of_app in Hin as [Hin|Hin].
        + exfalso. inversion Hd; subst tail;
            repeat (apply elem_of_cons in Hin as [Hin|Hin]; [try discriminate Hin|]);
            try (apply elem_of_nil in Hin; destruct Hin);
            destruct (skipReset self);
            repeat (apply elem_of_cons in Hin as [Hin|Hin]; [try discriminate Hin|]);
            apply elem_of_nil in Hin; destruct Hin.
        + apply list_elem_of_singleton in Hin. injection Hin as Hin.
          destruct res as [[]|e]; [reflexivity|discriminate Hin]. }
    inversion Hd as [ | | | v body Hcap Hm Hv Hu Et Er | | | | v body Hcap Hm Hv Hu Hp Et Er];
      subst tail; try congruence.
    + exists "bmc", v, body.
      split; [apply elem_of_app; right; apply elem_of_app; left; apply list_elem_of_here|].
      split; [exact Hu|]. split; [discriminate|].
      intros Hskip. left. rewrite Hskip in *. split; [reflexivity|].
      split; [|congruence].
      apply elem_of_app; right. apply elem_of_app. left.
      apply list_elem_of_further, list_elem_of_here.
    + exists "spi", v, body.
      split; [apply elem_of_app; right; apply elem_of_app; left; apply list_elem_of_here|].
      split; [exact Hu|]. split; [intros _; exact Hp|].
      intros Hskip. right. rewrite Hskip in *. split; [reflexivity|].
      split; [|congruence].
      apply elem_of_app; right. apply elem_of_app. left.
      apply list_elem_of_further, list_elem_of_here.
Qed.

(** X12: a reset is only ever asked of the agent with the flag [false],
    by a job whose [skipReset] is not set, of the kind the firmware type
    selects, and right after a firmware update that the agent answered. *)
Theorem resets_follow_updates (self : job) (ev : event) :
  ev ∈ trace (run' self) ->
  isReset ev = true ->
  skipReset self = false /\
  ((ev = BmcReset false /\ capitalize (firmwareType self) = "Bmc") \/
   (ev = WarmReset false /\ capitalize (firmwareType self) = "Spi")) /\
  exists evs kind v err,
    trace (run' self)
      = (evs ++ [UpdateFirmware kind (imageName self) (MString v) (diagImagePath self);
                 ev; Done err])%list.
Proof.
  intros Hin Hr.
  assert (Hnb : beforeDispatch ev = false) by (destruct ev; try discriminate Hr; reflexivity).
  assert (Hnd : forall err, ev <> Done err) by (intros err ->; discriminate Hr).
  destruct (run_event self _ Hin Hnb Hnd) as (_ & tail & res & Hd & Hrun & Ht).
  inversion Hd; subst tail res;
    repeat (apply elem_of_cons in Ht as [Ht|Ht]; [subst ev; try discriminate Hr|]);
    try (apply elem_of_nil in Ht; destruct Ht);
    destruct (skipReset self) eqn:Hskip;
    repeat (apply elem_of_cons in Ht as [Ht|Ht]; [subst ev; try discriminate Hr|]);
    try (apply elem_of_nil in Ht; destruct Ht);
    (split; [reflexivity|]); (split; [auto|]);
    exists (trace (uploaded' self)); eexists _, _, _; rewrite Hrun; reflexivity.
Qed.

Lemma retryLoop_attempts (tool : agent) (delay : Z) (retries attempt : nat) (self : job) :
  forallb isAttempt (trace (retryLoop tool delay attempt retries self)) = true.
Proof.
  revert attempt. induction retries as [|n IH]; intros attempt; simpl; [reflexivity|].
  unfold then_. simpl. destruct (syncDiscovery tool attempt); simpl; [reflexivity|].
  destruct n; simpl; [reflexivity|]. apply (IH (S attempt)).
Qed.

(** The chain up to the upload, written out, for a well-formed address. *)
Lemma uploaded_wellformed (self : job) :
  isIP (Context.nodeIp (context self)) 4 = true ->
  let ready := set_diagTool self (toolOf' self) in
  let loop := retryLoop (toolOf' self) (retryDuration self) 0 (Z.to_nat (retryCount self))
                        ready in
  let asked := [NewDiagTool (Context.nodeIp (context self)) (nodeId self);
                RetrySyncDiscovery (retryDuration self) (retryCount self)] in
  let upload := UploadImageFile (imageUrl self) (imageName self) "/api/upload/file" in
  outcome (discovering DiagTool isIP self self) = outcome loop /\
  uploaded' self
    = match outcome loop with
      | Throw e => Run (asked ++ trace loop) ready (Throw e)
      | Ok _ =>
          match getAllDevices (toolOf' self) with
          | Throw e => Run (asked ++ trace loop ++ [GetAllDevices]) ready (Throw e)
          | Ok _ =>
              Run (asked ++ trace loop ++ [GetAllDevices; upload]) ready
                  (uploadImageFile (toolOf' self) (imageUrl self) (imageName self)
                                   "/api/upload/file")
          end
      end.
Proof.
  intros H ready loop asked upload. subst ready loop asked upload.
  pose proof (discovering_wellformed DiagTool isIP self self H) as Hd. cbv zeta in Hd.
  split; [rewrite Hd; reflexivity|].
  unfold uploaded, Promise_try, then_. rewrite Hd. cbn [outcome this trace].
  destruct (outcome (retryLoop _ _ _ _ _)) as [[]|e]; cbn [outcome this trace];
    [|reflexivity].
  unfold enumerating, uploading, call. cbn [diagTool set_diagTool outcome this trace].
  destruct (getAllDevices (toolOf' self)) as [[]|e]; cbn [outcome this trace diagTool app];
    [|reflexivity].
  rewrite <- app_assoc. reflexivity.
Qed.

(** The update stage leaves none of the events of the earlier stages. *)
Lemma dispatchResult_events (self : job) (tool : agent) (tail : list event)
    (res : result unit) (ev : event) :
  dispatchResult capitalize toNumber self tool tail res ->
  ev ∈ tail -> beforeDispatch ev = false.
Proof.
  intros Hd Hin.
  inversion Hd; subst tail;
    repeat (apply elem_of_cons in Hin as [->|Hin]; [reflexivity|]);
    try (apply elem_of_nil in Hin; destruct Hin);
    destruct (skipReset self);
    repeat (apply elem_of_cons in Hin as [->|Hin]; [reflexivity|]);
    apply elem_of_nil in Hin; destruct Hin.
Qed.

Lemma run_early_event (self : job) (ev : event) :
  beforeDispatch ev = true ->
  ev ∈ trace (run' self) <-> ev ∈ trace (uploaded' self).
Proof.
  intros Hb.
  destruct (run_result self) as [(e & He & Hrun)|(Hok & tail & res & Hd & Hrun)];
    rewrite Hrun; cbn [trace]; rewrite !elem_of_app; split; auto.
  - intros [Hin|Hin]; [exact Hin|].
    apply list_elem_of_singleton in Hin. subst ev. discriminate Hb.
  - intros [Hin|[Hin|Hin]]; [exact Hin| |].
    + rewrite (dispatchResult_events _ _ _ _ _ Hd Hin) in Hb. discriminate Hb.
    + apply list_elem_of_singleton in Hin. subst ev. discriminate Hb.
Qed.

(** X13: the calls before the update happen in order and only on success
    of what comes before: the agent client is created exactly when the
    address passes the check, and for that address; the devices are
    enumerated exactly when discovery succeeded; the image is uploaded, from
    the job's URL under the job's name to [/api/upload/file], exactly when
    enumeration succeeded too. *)
Theorem agent_calls_in_order (self : job) :
  (forall host node,
     NewDiagTool host node ∈ trace (run' self)
     <-> isIP (Context.nodeIp (context self)) 4 = true /\
         host = Context.nodeIp (context self) /\ node = nodeId self) /\
  (GetAllDevices ∈ trace (run' self)
   <-> outcome (discovering DiagTool isIP self self) = Ok tt) /\
  (forall url name path,
     UploadImageFile url name path ∈ trace (run' self)
     <-> outcome (discovering DiagTool isIP self self) = Ok tt /\
         getAllDevices (toolOf' self) = Ok tt /\
         url = imageUrl self /\ name = imageName self /\ path = "/api/upload/file").
Proof.
  destruct (isIP (Context.nodeIp (context self)) 4) eqn:Hip.
  - destruct (uploaded_wellformed self Hip) as [Hdisc Hup]. cbv zeta in Hdisc, Hup.
    pose proof (retryLoop_attempts (toolOf' self) (retryDuration self)
                  (Z.to_nat (retryCount self)) 0 (set_diagTool self (toolOf' self))) as Hl.
    assert (Hloop : forall ev, isAttempt ev = false ->
              ev ∈ trace (retryLoop (toolOf' self) (retryDuration self) 0
                                    (Z.to_nat (retryCount self))
                                    (set_diagTool self (toolOf' self))) -> False).
    { intros ev Hn Hin. apply list_elem_of_In in Hin.
      rewrite (proj1 (forallb_forall _ _) Hl ev Hin) in Hn. discriminate Hn. }
    rewrite Hdisc.
    split; [|split].
    + intros host node.
      rewrite (run_early_event self (NewDiagTool host node) eq_refl), Hup.
      destruct (outcome (retryLoop _ _ _ _ _)) as [[]|e];
        [destruct (getAllDevices (toolOf' self)) as [[]|e]|]; cbn [trace];
        rewrite ?elem_of_app, ?elem_of_cons, ?elem_of_nil; split;
        try (intros (_ & -> & ->); left; left; reflexivity);
        intros Hin; decompose [or] Hin; clear Hin;
        try discriminate; try contradiction;
        try (exfalso; eapply Hloop; [|eassumption]; reflexivity);
        match goal with H : NewDiagTool _ _ = NewDiagTool _ _ |- _ =>
          injection H as -> -> end; auto.
    + rewrite (run_early_event self GetAllDevices eq_refl), Hup.
      destruct (outcome (retryLoop _ _ _ _ _)) as [[]|e];
        [destruct (getAllDevices (toolOf' self)) as [[]|e]|]; cbn [trace];
        rewrite ?elem_of_app, ?elem_of_cons, ?elem_of_nil; split;
        try (intros _; reflexivity); try discriminate;
        try (intros _; right; right; left; reflexivity);
        intros Hin; decompose [or] Hin; clear Hin;
        try discriminate; try contradiction;
        exfalso; eapply Hloop; [|eassumption]; reflexivity.
    + intros url name path.
      rewrite (run_early_event self (UploadImageFile url name path) eq_refl), Hup.
      destruct (outcome (retryLoop _ _ _ _ _)) as [[]|e];
        [destruct (getAllDevices (toolOf' self)) as [[]|e]|]; cbn [trace];
        rewrite ?elem_of_app, ?elem_of_cons, ?elem_of_nil; split;
        try (intros (_ & _ & -> & -> & ->); right; right; right; left; reflexivity);
        try (intros (_ & Hg & _); discriminate Hg);
        try (intros (Hd & _); discriminate Hd);
        intros Hin; decompose [or] Hin; clear Hin;
        try discriminate; try contradiction;
        try (exfalso; eapply Hloop; [|eassumption]; reflexivity);
        match goal with H : UploadImageFile _ _ _ = UploadImageFile _ _ _ |- _ =>
          injection H as -> -> -> end; auto.
  - assert (Hup : trace (uploaded' self) = []).
    { unfold uploaded, Promise_try, then_.
      rewrite (discovering_malformed DiagTool isIP _ _ Hip). reflexivity. }
    rewrite (discovering_malformed DiagTool isIP _ _ Hip). cbn [outcome].
    split; [|split].
    + intros host node.
      rewrite (run_early_event self (NewDiagTool host node) eq_refl), Hup. split.
      * intros Hin. apply elem_of_nil in Hin. destruct Hin.
      * intros (Hf & _). discriminate Hf.
    + rewrite (run_early_event self GetAllDevices eq_refl), Hup. split.
      * intros Hin. apply elem_of_nil in Hin. destruct Hin.
      * discriminate.
    + intros url name path.
      rewrite (run_early_event self (UploadImageFile url name path) eq_refl), Hup. split.
      * intros Hin. apply elem_of_nil in Hin. destruct Hin.
      * intros (Hf & _). discriminate Hf.
Qed.

End Coverage.

Lemma agent_updates_are_valid_witness :
  exists self,
    DiagUpdateFirmware (sampleOptions "spi" (ModeStr "serdes") None)
                       (sampleContext "10.1.1.3") "task" = Ok self /\
    UpdateFirmware "spi" "bios.bin" (MString "3") "/uploads"
      ∈ trace (_run (fun _ _ => agentOk bodyAccepted) isIPv4 capitalizeFirst
                    JS.toNumberDecimal self) /\
    "3" ∈ spiValid.
Proof.
  eexists. split; [reflexivity|].
  match goal with
  | |- ?P /\ _ => assert (Hin : P) by (vm_compute; repeat constructor)
  end.
  split; [exact Hin|].
  destruct (agent_updates_are_valid (fun _ _ => agentOk bodyAccepted) isIPv4 capitalizeFirst
              JS.toNumberDecimal (sampleOptions "spi" (ModeStr "serdes") None)
              (sampleContext "10.1.1.3") "task" _ "spi" "bios.bin" (MString "3") "/uploads"
              eq_refl Hin) as (_ & _ & v & Hv & [(Hk & _)|(_ & _ & Hvalid)]).
  - discriminate Hk.
  - injection Hv as <-. exact Hvalid.
Defined.

Lemma logged_failure_ends_job_witness :
  exists self,
    DiagUpdateFirmware (sampleOptions "spi" (ModeInt 1) None)
                       (sampleContext "10.1.1.3") "task" = Ok self /\
    LoggerError "Failed to get reset flags from diag"
                (Some (JS.cannotRead "length" "undefined"))
                (JS.Obj [("error", JS.Str "busy")]) "node-1"
      ∈ trace (_run (fun _ _ => agentOk (JS.Obj [("error", JS.Str "busy")])) isIPv4
                    capitalizeFirst JS.toNumberDecimal self) /\
    capitalizeFirst (firmwareType self) = "Spi".
Proof.
  eexists. split; [reflexivity|].
  match goal with
  | |- ?P /\ _ => assert (Hin : P) by (vm_compute; repeat constructor)
  end.
  split; [exact Hin|].
  exact (proj1 (proj2 (proj2 (logged_failure_ends_job _ _ _ _ _ _ _ _ _ Hin)))).
Defined.

Lemma success_means_updated_witness :
  exists self,
    DiagUpdateFirmware (sampleOptions "bmc" (ModeStr "ssp") None)
                       (sampleContext "10.1.1.3") "task" = Ok self /\
    Done None ∈ trace (_run (fun _ _ => agentOk JS.Null) isIPv4 capitalizeFirst
                            JS.toNumberDecimal self) /\
    outcome (uploaded (fun _ _ => agentOk JS.Null) isIPv4 self) = Ok tt.
Proof.
  eexists. split; [reflexivity|].
  match goal with
  | |- ?P /\ _ => assert (Hin : P) by (vm_compute; repeat constructor)
  end.
  split; [exact Hin|].
  exact (proj1 (success_means_updated _ _ _ _ _ Hin)).
Defined.

Lemma resets_follow_updates_witness :
  exists self,
    DiagUpdateFirmware (sampleOptions "bmc" (ModeStr "ssp") None)
                       (sampleContext "10.1.1.3") "task" = Ok self /\
    BmcReset false ∈ trace (_run (fun _ _ => agentOk JS.Null) isIPv4 capitalizeFirst
                                 JS.toNumberDecimal self) /\
    skipReset self = false.
Proof.
  eexists. split; [reflexivity|].
  match goal with
  | |- ?P /\ _ => assert (Hin : P) by (vm_compute; repeat constructor)
  end.
  split; [exact Hin|].
  exact (proj1 (resets_follow_updates _ _ _ _ _ _ Hin eq_refl)).
Defined.

(** ** Further properties: the response and the job before its run *)

(** X8: on a body whose [result] is a sequence, the expression of
    [updateSpi] reads the nested field of the second-to-last entry and of
    no other: the entries before it and the last one do not matter. A
    sequence of fewer than two entries makes it throw. *)
Theorem readResetFlag_second_to_last (toNumber : JS.value -> result (option Z))
    (fields : list (string * JS.value)) :
  (forall pre e last,
     JS.ownProperty fields "result" = JS.Arr (pre ++ [e; last]) ->
     readResetFlag toNumber (JS.Obj fields)
       = match JS.get e "atomic_test_data" with
         | Ok data => JS.get data "secure_firmware_update"
         | Throw err => Throw err
         end) /\
  (forall entries,
     JS.ownProperty fields "result" = JS.Arr entries ->
     (length entries < 2)%nat ->
     readResetFlag toNumber (JS.Obj fields)
       = Throw (JS.cannotRead "atomic_test_data" "undefined")).
Proof.
  split.
  - intros pre e last H. unfold readResetFlag. cbn [JS.get]. rewrite H. cbn [JS.get].
    change (bool_decide ("length" = "length")) with true. cbn iota.
    unfold JS.minus2. cbn [JS.getIndex].
    rewrite length_app. cbn [length].
    replace (0 <=? Z.of_nat (length pre + 2) - 2) with true by (symmetry; apply Z.leb_le; lia).
    replace (Z.to_nat (Z.of_nat (length pre + 2) - 2)) with (length pre) by lia.
    rewrite (list_lookup_middle pre [last] e (length pre) eq_refl). reflexivity.
  - intros entries H Hlen. unfold readResetFlag. cbn [JS.get]. rewrite H. cbn [JS.get].
    change (bool_decide ("length" = "length")) with true. cbn iota.
    unfold JS.minus2. cbn [JS.getIndex].
    replace (0 <=? Z.of_nat (length entries) - 2) with false
      by (symmetry; apply Z.leb_gt; lia).
    reflexivity.
Qed.

Lemma readResetFlag_second_to_last_witness :
  readResetFlag JS.toNumberDecimal
    (JS.Obj [("status", JS.Num 0);
             ("result", JS.Arr [JS.Str "log"; JS.Null; resetPrompt; JS.Num 7])])
    = Ok (JS.Str "Issue warm reset NOW!") /\
  readResetFlag JS.toNumberDecimal (JS.Obj [("result", JS.Arr [resetPrompt])])
    = Throw (JS.cannotRead "atomic_test_data" "undefined").
Proof.
  destruct (readResetFlag_second_to_last JS.toNumberDecimal
              [("status", JS.Num 0);
               ("result", JS.Arr [JS.Str "log"; JS.Null; resetPrompt; JS.Num 7])])
    as (H1 & _).
  destruct (readResetFlag_second_to_last JS.toNumberDecimal
              [("result", JS.Arr [resetPrompt])]) as (_ & H2).
  split.
  - rewrite (H1 [JS.Str "log"; JS.Null] resetPrompt (JS.Num 7) eq_refl). reflexivity.
  - apply (H2 [resetPrompt] eq_refl). simpl. lia.
Defined.

(** X9: on a job as the constructor leaves it, before any run, the update
    procedures reach no agent: they send nothing, leave the job object as
    it is and throw, the validation error for a mode that is not valid and
    otherwise the type error of calling a method of the empty [diagTool]. *)
Theorem update_before_run_throws (toNumber : JS.value -> result (option Z))
    options ctx taskId self (imageName : string) (imageMode : mode) (path : string) :
  DiagUpdateFirmware options ctx taskId = Ok self ->
  let noClient := TypeError "self.diagTool.updateFirmware is not a function" in
  (updateBmc imageName imageMode path self = Run [] self (Throw noClient) \/
   updateBmc imageName imageMode path self = Run [] self (Throw (AssertionError "isIn"))) /\
  (updateSpi toNumber imageName imageMode path self = Run [] self (Throw noClient) \/
   updateSpi toNumber imageName imageMode path self
     = Run [] self (Throw (AssertionError "isIn"))) /\
  (forall v, parseBmcMode self imageMode = MString v -> v ∈ bmcValid ->
     updateBmc imageName imageMode path self = Run [] self (Throw noClient)) /\
  (forall v, parseSpiMode self imageMode = MString v -> v ∈ spiValid ->
     updateSpi toNumber imageName imageMode path self = Run [] self (Throw noClient)).
Proof.
  intros Hc noClient. subst noClient.
  destruct (constructed_fields _ _ _ _ Hc) as (_ & _ & _ & _ & Htool & _).
  assert (Hb : forall v, parseBmcMode self imageMode = MString v -> v ∈ bmcValid ->
            updateBmc imageName imageMode path self
              = Run [] self (Throw (TypeError "self.diagTool.updateFirmware is not a function"))).
  { intros v Hm Hv. unfold updateBmc, then_. rewrite Hm.
    unfold bmcValid in Hv. rewrite (assert_isIn_member v _ self Hv). simpl.
    unfold call. rewrite Htool. reflexivity. }
  assert (Hs : forall v, parseSpiMode self imageMode = MString v -> v ∈ spiValid ->
            updateSpi toNumber imageName imageMode path self
              = Run [] self (Throw (TypeError "self.diagTool.updateFirmware is not a function"))).
  { intros v Hm Hv. unfold updateSpi, then_. rewrite Hm.
    unfold spiValid in Hv. rewrite (assert_isIn_member v _ self Hv). simpl.
    unfold call. rewrite Htool. reflexivity. }
  split; [|split; [|split; [exact Hb | exact Hs]]].
  - destruct (valid_or_not (parseBmcMode self imageMode) bmcValid) as [(v & Hm & Hv)|Hinv].
    + left. exact (Hb v Hm Hv).
    + right. apply updateBmc_invalid. exact Hinv.
  - destruct (valid_or_not (parseSpiMode self imageMode) spiValid) as [(v & Hm & Hv)|Hinv].
    + left. exact (Hs v Hm Hv).
    + right. apply updateSpi_invalid. exact Hinv.
Qed.

Lemma update_before_run_throws_witness :
  exists self,
    DiagUpdateFirmware (sampleOptions "bmc" (ModeStr "ssp") None)
                       (sampleContext "10.1.1.3") "task" = Ok self /\
    updateBmc "bios.bin" (ModeStr "ssp") "/uploads" self
      = Run [] self (Throw (TypeError "self.diagTool.updateFirmware is not a function")).
Proof.
  eexists. split; [reflexivity|].
  destruct (update_before_run_throws JS.toNumberDecimal
              (sampleOptions "bmc" (ModeStr "ssp") None) (sampleContext "10.1.1.3") "task"
              _ "bios.bin" (ModeStr "ssp") "/uploads" eq_refl) as (_ & _ & Hb & _).
  apply (Hb "0x142"); [reflexivity | decide_closed].
Defined.
